(** * moleculab: the Atom class of [src/modules/atom/index.ts]

    A shallow embedding of the [Atom] class and of what it imports, and the
    properties of its integration step, its style derivation, its constructor
    and its bond-angle query.

    Numbers.  A TypeScript [number] is an IEEE-754 double.  It is modelled by
    the type [number] below: a real, or one of the three special values
    [+Infinity], [-Infinity] and [NaN], with the arithmetic ECMAScript gives
    to the special values.  Finite arithmetic is exact: rounding and overflow
    to infinity are not modelled, and the two zeros are one (it stands for
    [+0]).  [Math.log], [Math.sqrt] and [Math.atan2] are the mathematical
    functions on the finite values.

    The doubles.  A statement about an order or a range is made so that it
    also holds when the arithmetic rounds: a bound that exact arithmetic
    reaches is stated with a margin, and where an overflow would break it the
    magnitudes are bounded.  Where the sign of a zero decides the result (the
    angle of [calculateAngle]) the function is embedded a second time, in
    [SignedZero], on numbers with the two zeros.

    Objects.  A method that reads or writes the fields of [this] takes the
    record of the fields and returns the record after the call.  The bonds
    compare atoms by identity, so [isBondedWith] and [calculateAngle] take
    references, and a heap gives the atom a reference points to.

    [draw] (canvas calls, with a colour string formatted from a number) and
    [generateUniqueID] (the clock and a random number, printed in base 36) are
    not embedded; the random draws of [generateRandomAtom] and the generated
    id are arguments. *)

From Stdlib Require Import Reals Lra Lia List String Bool PeanoNat.
Import ListNotations.

Local Open Scope R_scope.

(** ** The [number] type *)

Inductive number : Type :=
| Fin (r : R)
| PosInfinity
| NegInfinity
| NaN.

Definition isFinite (a : number) : bool :=
  match a with
  | Fin _ => true
  | _ => false
  end.

Definition isNaN (a : number) : bool :=
  match a with
  | NaN => true
  | _ => false
  end.

(** The operators of ECMAScript's Number type. *)
Module Number.

(** An infinity of the given sign ([true]: negative). *)
Definition infinity (negative : bool) : number :=
  if negative then NegInfinity else PosInfinity.

(** An infinity times, or a zero dividing, the finite [r]. *)
Definition scaleInfinity (negative : bool) (r : R) : number :=
  if Rlt_dec 0 r then infinity negative
  else if Rlt_dec r 0 then infinity (negb negative)
  else NaN.

(** [-a] *)
Definition unaryMinus (a : number) : number :=
  match a with
  | Fin r => Fin (- r)
  | PosInfinity => NegInfinity
  | NegInfinity => PosInfinity
  | NaN => NaN
  end.

(** [a + b] *)
Definition add (a b : number) : number :=
  match a, b with
  | Fin r, Fin s => Fin (r + s)
  | Fin _, PosInfinity => PosInfinity
  | Fin _, NegInfinity => NegInfinity
  | PosInfinity, Fin _ => PosInfinity
  | PosInfinity, PosInfinity => PosInfinity
  | NegInfinity, Fin _ => NegInfinity
  | NegInfinity, NegInfinity => NegInfinity
  | _, _ => NaN
  end.

(** [a - b] *)
Definition subtract (a b : number) : number := add a (unaryMinus b).

(** [a * b] *)
Definition multiply (a b : number) : number :=
  match a, b with
  | Fin r, Fin s => Fin (r * s)
  | Fin r, PosInfinity => scaleInfinity false r
  | Fin r, NegInfinity => scaleInfinity true r
  | PosInfinity, Fin s => scaleInfinity false s
  | NegInfinity, Fin s => scaleInfinity true s
  | PosInfinity, PosInfinity => PosInfinity
  | NegInfinity, NegInfinity => PosInfinity
  | PosInfinity, NegInfinity => NegInfinity
  | NegInfinity, PosInfinity => NegInfinity
  | _, _ => NaN
  end.

(** [a / b]; a zero divisor is [+0]. *)
Definition divide (a b : number) : number :=
  match a, b with
  | Fin r, Fin s => if Req_dec_T s 0 then scaleInfinity false r else Fin (r / s)
  | Fin _, PosInfinity => Fin 0
  | Fin _, NegInfinity => Fin 0
  | PosInfinity, Fin s => if Rlt_dec s 0 then NegInfinity else PosInfinity
  | NegInfinity, Fin s => if Rlt_dec s 0 then PosInfinity else NegInfinity
  | _, _ => NaN
  end.

(** [a < b]: false when either side is [NaN]. *)
Definition lessThan (a b : number) : bool :=
  match a, b with
  | Fin r, Fin s => if Rlt_dec r s then true else false
  | Fin _, PosInfinity => true
  | NegInfinity, Fin _ => true
  | NegInfinity, PosInfinity => true
  | _, _ => false
  end.

(** [a <= b]: false when either side is [NaN]. *)
Definition lessThanOrEqual (a b : number) : bool :=
  match a, b with
  | Fin r, Fin s => if Rle_dec r s then true else false
  | Fin _, PosInfinity => true
  | NegInfinity, Fin _ => true
  | NegInfinity, PosInfinity => true
  | PosInfinity, PosInfinity => true
  | NegInfinity, NegInfinity => true
  | _, _ => false
  end.

(** [t] is an integer, and an odd one. *)
Definition isInteger (t : R) : bool :=
  if Req_dec_T (IZR (Int_part t)) t then true else false.

Definition isOddInteger (t : R) : bool := isInteger t && Z.odd (Int_part t).

(** [base ** exponent]; a zero base is [+0]. *)
Definition exponentiate (base exponent : number) : number :=
  match exponent with
  | NaN => NaN
  | Fin t =>
      if Req_dec_T t 0 then Fin 1
      else
        match base with
        | NaN => NaN
        | PosInfinity => if Rlt_dec 0 t then PosInfinity else Fin 0
        | NegInfinity =>
            if Rlt_dec 0 t
            then if isOddInteger t then NegInfinity else PosInfinity
            else Fin 0
        | Fin r =>
            if Req_dec_T r 0 then if Rlt_dec 0 t then Fin 0 else PosInfinity
            else if Rlt_dec 0 r then Fin (Rpower r t)
            else if isInteger t then Fin (powerRZ r (Int_part t))
            else NaN
        end
  | PosInfinity =>
      match base with
      | NaN => NaN
      | PosInfinity => PosInfinity
      | NegInfinity => PosInfinity
      | Fin r =>
          if Req_dec_T r 0 then Fin 0
          else if Rlt_dec 1 (Rabs r) then PosInfinity
          else if Req_dec_T (Rabs r) 1 then NaN
          else Fin 0
      end
  | NegInfinity =>
      match base with
      | NaN => NaN
      | PosInfinity => Fin 0
      | NegInfinity => Fin 0
      | Fin r =>
          if Req_dec_T r 0 then PosInfinity
          else if Rlt_dec 1 (Rabs r) then Fin 0
          else if Req_dec_T (Rabs r) 1 then NaN
          else PosInfinity
      end
  end.

(** ToBoolean on a number: [0] and [NaN] are falsy. *)
Definition toBoolean (a : number) : bool :=
  match a with
  | Fin r => if Req_dec_T r 0 then false else true
  | NaN => false
  | _ => true
  end.

End Number.

(** The functions of the [Math] object the class calls. *)
Module Math.

Definition PI : number := Fin Rtrigo1.PI.

(** [Math.min(a, b)] *)
Definition min (a b : number) : number :=
  match a, b with
  | NaN, _ => NaN
  | _, NaN => NaN
  | _, _ => if Number.lessThan b a then b else a
  end.

(** [Math.max(a, b)] *)
Definition max (a b : number) : number :=
  match a, b with
  | NaN, _ => NaN
  | _, NaN => NaN
  | _, _ => if Number.lessThan a b then b else a
  end.

(** [Math.sqrt(a)] *)
Definition sqrt (a : number) : number :=
  match a with
  | Fin r => if Rlt_dec r 0 then NaN else Fin (R_sqrt.sqrt r)
  | PosInfinity => PosInfinity
  | _ => NaN
  end.

(** [Math.log(a)]: the natural logarithm. *)
Definition log (a : number) : number :=
  match a with
  | Fin r =>
      if Rlt_dec r 0 then NaN
      else if Req_dec_T r 0 then NegInfinity
      else Fin (ln r)
  | PosInfinity => PosInfinity
  | _ => NaN
  end.

(** The angle of the point [(u, w)] of the plane, in [(-PI, PI]]. *)
Definition atan2R (w u : R) : R :=
  if Rlt_dec 0 u then atan (w / u)
  else if Rlt_dec u 0 then
    if Rlt_dec w 0 then atan (w / u) - Rtrigo1.PI else atan (w / u) + Rtrigo1.PI
  else if Rlt_dec 0 w then Rtrigo1.PI / 2
  else if Rlt_dec w 0 then - Rtrigo1.PI / 2
  else 0.

(** [Math.atan2(b, a)], [b] the ordinate and [a] the abscissa. *)
Definition atan2 (b a : number) : number :=
  match b, a with
  | NaN, _ => NaN
  | _, NaN => NaN
  | Fin w, Fin u => Fin (atan2R w u)
  | Fin _, PosInfinity => Fin 0
  | Fin w, NegInfinity => if Rlt_dec w 0 then Fin (- Rtrigo1.PI) else Fin Rtrigo1.PI
  | PosInfinity, Fin _ => Fin (Rtrigo1.PI / 2)
  | NegInfinity, Fin _ => Fin (- Rtrigo1.PI / 2)
  | PosInfinity, PosInfinity => Fin (Rtrigo1.PI / 4)
  | PosInfinity, NegInfinity => Fin (3 * Rtrigo1.PI / 4)
  | NegInfinity, PosInfinity => Fin (- Rtrigo1.PI / 4)
  | NegInfinity, NegInfinity => Fin (- 3 * Rtrigo1.PI / 4)
  end.

(** [Math.floor(a)] *)
Definition floor (a : number) : number :=
  match a with
  | Fin r => Fin (IZR (Int_part r))
  | _ => a
  end.

End Math.

(** ** Truthiness, [||] and [?.] *)

(** ECMAScript's ToBoolean, per type of value. *)
Class ToBoolean (A : Type) : Type := toBoolean : A -> bool.

#[export] Instance number_ToBoolean : ToBoolean number := Number.toBoolean.

(** The empty string is the one falsy string. *)
#[export] Instance string_ToBoolean : ToBoolean string :=
  fun s => match s with EmptyString => false | String _ _ => true end.

(** The test [if (v)] on an optional value: [undefined] is falsy. *)
Definition truthy {A : Type} `{ToBoolean A} (v : option A) : bool :=
  match v with
  | Some a => toBoolean a
  | None => false
  end.

(** [v || d] on an optional value [v]. *)
Definition orElse {A : Type} `{ToBoolean A} (v : option A) (d : A) : A :=
  match v with
  | Some a => if toBoolean a then a else d
  | None => d
  end.

(** [o?.f] *)
Definition optChain {A B : Type} (o : option A) (f : A -> option B) : option B :=
  match o with
  | Some a => f a
  | None => None
  end.

(** ** Vector2 *)

Module Vector2.

(** Modelled from the spec: [src/modules/physics/vector.ts] is not among the
    sources.  Section 3 of the specification: a vector has the two
    attributes [x] and [y], and is built by [new Vector2(x, y)]. *)
Record t : Type := new { x : number; y : number }.

(** Modelled from the spec: the operation add of section 4.1, under the name
    the Atom class calls it by; it returns a new vector, componentwise. *)
Definition sum (u v : t) : t :=
  new (Number.add (x u) (x v)) (Number.add (y u) (y v)).

(** Modelled from the spec: the operation subtract of section 4.1. *)
Definition sub (u v : t) : t :=
  new (Number.subtract (x u) (x v)) (Number.subtract (y u) (y v)).

(** Modelled from the spec: the operation scale of section 4.1. *)
Definition multi (u : t) (k : number) : t :=
  new (Number.multiply (x u) k) (Number.multiply (y u) k).

(** Modelled from the spec: the Euclidean norm [sqrt(x^2 + y^2)] of section
    4.1. *)
Definition length (u : t) : number :=
  Math.sqrt (Number.add (Number.multiply (x u) (x u)) (Number.multiply (y u) (y u))).

End Vector2.

(** An object is truthy. *)
#[export] Instance Vector2_ToBoolean : ToBoolean Vector2.t := fun _ => true.

(** ** The data of an atom *)

(** [interface AtomProperties]: every field is optional.  [Isotope] is the
    record type of [./isotope], which the class stores and never inspects. *)
Record AtomProperties (Isotope : Type) : Type := {
  atomicNumber : option number;
  atomicMass : option number;
  symbol : option string;
  electronConfiguration : option string;
  atomicRadius : option number;
  electronegativity : option number;
  ionizationEnergy : option number;
  electronAffinity : option number;
  oxidationState : option number;
  protons : option number;
  neutrons : option number;
  electrons : option number;
  isotopes : option (list Isotope)
}.

Arguments atomicNumber {Isotope} _.
Arguments atomicMass {Isotope} _.
Arguments symbol {Isotope} _.
Arguments electronConfiguration {Isotope} _.
Arguments atomicRadius {Isotope} _.
Arguments electronegativity {Isotope} _.
Arguments ionizationEnergy {Isotope} _.
Arguments electronAffinity {Isotope} _.
Arguments oxidationState {Isotope} _.
Arguments protons {Isotope} _.
Arguments neutrons {Isotope} _.
Arguments electrons {Isotope} _.
Arguments isotopes {Isotope} _.

#[export] Instance AtomProperties_ToBoolean (Isotope : Type) :
  ToBoolean (AtomProperties Isotope) := fun _ => true.

(** The empty record [{}]. *)
Definition emptyProperties (Isotope : Type) : AtomProperties Isotope :=
  {| atomicNumber := None; atomicMass := None; symbol := None;
     electronConfiguration := None; atomicRadius := None;
     electronegativity := None; ionizationEnergy := None;
     electronAffinity := None; oxidationState := None; protons := None;
     neutrons := None; electrons := None; isotopes := None |}.

(** [interface AtomConfig] *)
Module AtomConfig.

Record t (Isotope : Type) : Type := {
  pos : option Vector2.t;
  vel : option Vector2.t;
  size : option number;
  id : option string;
  friction : option number;
  properties : option (AtomProperties Isotope)
}.

Arguments pos {Isotope} _.
Arguments vel {Isotope} _.
Arguments size {Isotope} _.
Arguments id {Isotope} _.
Arguments friction {Isotope} _.
Arguments properties {Isotope} _.

End AtomConfig.

(** The fields of [class Atom]. *)
Record Atom (Isotope : Type) : Type := {
  pos : Vector2.t;
  vel : Vector2.t;
  selected : bool;
  size : number;
  id : string;
  friction : number;
  properties : AtomProperties Isotope
}.

Arguments pos {Isotope} _.
Arguments vel {Isotope} _.
Arguments selected {Isotope} _.
Arguments size {Isotope} _.
Arguments id {Isotope} _.
Arguments friction {Isotope} _.
Arguments properties {Isotope} _.

(** The record [getStyle] returns. *)
Record Style : Type := {
  color : string;
  atomicNumberSize : number;
  symbolFontSize : number;
  atomicMassSize : number
}.

(** An atom as the bonds hold it: a reference, compared by [===]. *)
Definition ref : Type := nat.

(** Modelled from the spec: [src/modules/atom/bond.ts] is not among the
    sources.  Sections 3 and 4.2 of the specification: a bond holds two atom
    references, [atom1] and [atom2], in the order given. *)
Record Bond : Type := { atom1 : ref; atom2 : ref }.

(** ** The methods of [class Atom] *)

Section AtomMethods.

Context {Isotope : Type}.

(** The assignments [this.pos = p], [this.vel = v] and [this.size = s]. *)
Definition set_pos (this : Atom Isotope) (p : Vector2.t) : Atom Isotope :=
  {| pos := p; vel := vel this; selected := selected this; size := size this;
     id := id this; friction := friction this; properties := properties this |}.

Definition set_vel (this : Atom Isotope) (v : Vector2.t) : Atom Isotope :=
  {| pos := pos this; vel := v; selected := selected this; size := size this;
     id := id this; friction := friction this; properties := properties this |}.

Definition set_size (this : Atom Isotope) (s : number) : Atom Isotope :=
  {| pos := pos this; vel := vel this; selected := selected this; size := s;
     id := id this; friction := friction this; properties := properties this |}.

(** [constructor(config?)].  [generatedID] is what
    [this.generateUniqueID()] returns when it is called: a string made of the
    clock and of a random number. *)
Definition constructor (generatedID : string) (config : option (AtomConfig.t Isotope)) :
    Atom Isotope :=
  let this :=
    {| pos := orElse (optChain config AtomConfig.pos) (Vector2.new (Fin 0) (Fin 0));
       vel := orElse (optChain config AtomConfig.vel) (Vector2.new (Fin 0) (Fin 0));
       selected := false;
       size := orElse (optChain config AtomConfig.size) (Fin 25);
       id := orElse (optChain config AtomConfig.id) generatedID;
       friction := orElse (optChain config AtomConfig.friction) (Fin 1);
       properties := orElse (optChain config AtomConfig.properties)
                       (emptyProperties Isotope) |} in
  set_size this
    (Number.add (size this)
       (Number.divide
          (Number.exponentiate (orElse (atomicMass (properties this)) (Fin 1)) (Fin 1.2))
          (Fin 10))).

(** [getAnimatedSize()] *)
Definition getAnimatedSize (this : Atom Isotope) : number :=
  Number.multiply (size this)
    (Number.add (Fin 1)
       (Number.divide
          (Math.min (Vector2.length (vel this)) (Number.multiply (size this) (Fin 2)))
          (Number.multiply (size this) (Fin 10)))).

(** [getStyle()] *)
Definition getStyle (this : Atom Isotope) : Style :=
  let color0 := "#0095DD"%string in
  let atomicNumberSize0 := Fin 10 in
  let symbolFontSize0 := Fin 24 in
  let atomicMassSize0 := Fin 8 in
  let color1 :=
    match electronegativity (properties this) with
    | Some electronegativity =>
        if toBoolean electronegativity then
          if Number.lessThanOrEqual electronegativity (Fin 1.0) then "#74D77F"%string
          else if Number.lessThanOrEqual electronegativity (Fin 2.0) then "#FFF176"%string
          else "#FF7043"%string
        else color0
    | None => color0
    end in
  let atomicNumberSize1 :=
    match atomicNumber (properties this) with
    | Some atomicNumber =>
        if toBoolean atomicNumber then
          Math.max (Fin 8) (Math.min (Fin 20) (Number.divide atomicNumber (Fin 10)))
        else atomicNumberSize0
    | None => atomicNumberSize0
    end in
  let atomicMassSize1 :=
    match atomicMass (properties this) with
    | Some atomicMass =>
        if toBoolean atomicMass then
          Math.max (Fin 6) (Math.min (Fin 14) (Number.divide atomicMass (Fin 40)))
        else atomicMassSize0
    | None => atomicMassSize0
    end in
  let symbolFontSize1 :=
    match symbol (properties this) with
    | Some symbol =>
        if toBoolean symbol then
          Math.max (Fin 16)
            (Math.min (Fin 32)
               (Number.add symbolFontSize0
                  (Number.multiply (Fin (INR (String.length symbol))) (Fin 2))))
        else symbolFontSize0
    | None => symbolFontSize0
    end in
  {| color := color1; atomicNumberSize := atomicNumberSize1;
     symbolFontSize := symbolFontSize1; atomicMassSize := atomicMassSize1 |}.

(** The scalar both updates of [calcPosition] multiply by:
    [delta * (1 / Math.log(this.properties.atomicMass || 2)) * 20]. *)
Definition stepScale (this : Atom Isotope) (delta : number) : number :=
  Number.multiply
    (Number.multiply delta
       (Number.divide (Fin 1) (Math.log (orElse (atomicMass (properties this)) (Fin 2)))))
    (Fin 20).

(** [calcPosition(delta)]: the atom after the call. *)
Definition calcPosition (this : Atom Isotope) (delta : number) : Atom Isotope :=
  if Number.lessThan (Vector2.length (vel this)) (Fin 0.00001) then
    set_vel this (Vector2.new (Fin 0) (Fin 0))
  else
    let frictionForce := Vector2.multi (vel this) (Number.unaryMinus (friction this)) in
    let this1 :=
      set_vel this
        (Vector2.sum (vel this) (Vector2.multi frictionForce (stepScale this delta))) in
    set_pos this1
      (Vector2.sum (pos this1) (Vector2.multi (vel this1) (stepScale this1 delta))).

(** [isBondedWith(bonds, otherAtom)], [this] and [otherAtom] as references. *)
Definition isBondedWith (this : ref) (bonds : list Bond) (otherAtom : ref) : bool :=
  existsb
    (fun bond =>
       (Nat.eqb (atom1 bond) this && Nat.eqb (atom2 bond) otherAtom)
       || (Nat.eqb (atom1 bond) otherAtom && Nat.eqb (atom2 bond) this))
    bonds.

(** [Atom.calculateAngle(bonds, atom1, atom2, atom3)]; [None] is [null].
    [heap] gives the atom a reference points to. *)
Definition calculateAngle (heap : ref -> Atom Isotope) (bonds : list Bond)
    (atom1 atom2 atom3 : ref) : option number :=
  let isConnected :=
    isBondedWith atom1 bonds atom2 && isBondedWith atom2 bonds atom3
    && isBondedWith atom3 bonds atom1 in
  if negb isConnected then None
  else
    let vector1 := Vector2.sub (pos (heap atom1)) (pos (heap atom2)) in
    let vector2 := Vector2.sub (pos (heap atom3)) (pos (heap atom2)) in
    let angleInRadians :=
      Number.subtract
        (Math.atan2 (Vector2.y vector2) (Vector2.x vector2))
        (Math.atan2 (Vector2.y vector1) (Vector2.x vector1)) in
    let angleInRadians :=
      if Number.lessThan angleInRadians (Fin 0)
      then Number.add angleInRadians (Number.multiply (Fin 2) Math.PI)
      else angleInRadians in
    let angleInDegrees :=
      Number.multiply angleInRadians (Number.divide (Fin 180) Math.PI) in
    Some angleInDegrees.

End AtomMethods.

(** ** Definitions for the statements *)

(** *** Atoms used as concrete inputs *)

(** The properties record [{ atomicMass: mass }], or [{}] without a mass. *)
Definition massOnly (mass : option number) : AtomProperties Empty_set :=
  {| atomicNumber := None; atomicMass := mass; symbol := None;
     electronConfiguration := None; atomicRadius := None;
     electronegativity := None; ionizationEnergy := None;
     electronAffinity := None; oxidationState := None; protons := None;
     neutrons := None; electrons := None; isotopes := None |}.

(** An atom at the origin with the given velocity, friction and properties. *)
Definition atomWith (v : Vector2.t) (f : number) (props : AtomProperties Empty_set) :
    Atom Empty_set :=
  {| pos := Vector2.new (Fin 0) (Fin 0); vel := v; selected := false;
     size := Fin 25; id := "a"; friction := f; properties := props |}.

(** *** The integration step, as the specification words it *)

(** [k = 20 / ln(mass)] *)
Definition specDamping (mass : number) : number :=
  Number.divide (Fin 20) (Math.log mass).

(** [v + (v * -friction) * delta * k] *)
Definition specVelocity (v : Vector2.t) (f delta k : number) : Vector2.t :=
  Vector2.sum v
    (Vector2.multi (Vector2.multi (Vector2.multi v (Number.unaryMinus f)) delta) k).

(** [p + v' * delta * k] *)
Definition specPosition (p v' : Vector2.t) (delta k : number) : Vector2.t :=
  Vector2.sum p (Vector2.multi (Vector2.multi v' delta) k).

(** [m ?? d]: the default only when the value is absent. *)
Definition nullishOr (m : option number) (d : number) : number :=
  match m with
  | Some n => n
  | None => d
  end.

(** *** Bonds, angles and sizes *)

(** The list holds a bond between [a] and [b], in either order. *)
Definition bonded (bonds : list Bond) (a b : ref) : Prop :=
  exists bond, In bond bonds
    /\ ((atom1 bond = a /\ atom2 bond = b) \/ (atom1 bond = b /\ atom2 bond = a)).

(** Both components of the vector are finite. *)
Definition finiteVector (v : Vector2.t) : bool :=
  isFinite (Vector2.x v) && isFinite (Vector2.y v).

(** The angle at [(bx, by)] from the ray to [(ax, ay)] to the ray to
    [(cx, cy)], counter-clockwise, in degrees. *)
Definition angleDegreesR (ax ay bx by' cx cy : R) : R :=
  let t := Math.atan2R (cy - by') (cx - bx) - Math.atan2R (ay - by') (ax - bx) in
  (if Rlt_dec t 0 then t + 2 * PI else t) * (180 / PI).

(** An atom at rest at [p]. *)
Definition atomAt (p : Vector2.t) : Atom Empty_set :=
  {| pos := p; vel := Vector2.new (Fin 0) (Fin 0); selected := false;
     size := Fin 25; id := "a"; friction := Fin 1; properties := massOnly None |}.

(** Three atoms: 0 at (0, 0), 1 at (1, 0), and 2 (and the rest) at (1, 1). *)
Definition triangleHeap (r : ref) : Atom Empty_set :=
  match r with
  | O => atomAt (Vector2.new (Fin 0) (Fin 0))
  | S O => atomAt (Vector2.new (Fin 1) (Fin 0))
  | _ => atomAt (Vector2.new (Fin 1) (Fin 1))
  end.

(** The three bonds 0-1, 1-2 and 2-0. *)
Definition triangleBonds : list Bond :=
  [ {| atom1 := 0%nat; atom2 := 1%nat |}; {| atom1 := 1%nat; atom2 := 2%nat |};
    {| atom1 := 2%nat; atom2 := 0%nat |} ].

(** The size [s] animated by a speed [l]. *)
Definition animatedR (s l : R) : R := s * (1 + Rmin l (s * 2) / (s * 10)).

(** The properties record [{ electronegativity: e }]. *)
Definition electronegativityOnly (e : number) : AtomProperties Empty_set :=
  {| atomicNumber := None; atomicMass := None; symbol := None;
     electronConfiguration := None; atomicRadius := None;
     electronegativity := Some e; ionizationEnergy := None;
     electronAffinity := None; oxidationState := None; protons := None;
     neutrons := None; electrons := None; isotopes := None |}.

(** The four colours of [getStyle]. *)
Definition neutralColor : string := "#0095DD".
Definition greenColor : string := "#74D77F".
Definition yellowColor : string := "#FFF176".
Definition redColor : string := "#FF7043".

(** The configuration [{ size: 0, friction: 0 }]. *)
Definition zeroConfig : AtomConfig.t Empty_set :=
  {| AtomConfig.pos := None; AtomConfig.vel := None;
     AtomConfig.size := Some (Fin 0); AtomConfig.id := None;
     AtomConfig.friction := Some (Fin 0); AtomConfig.properties := None |}.

(** *** The random factory and the frames *)

(** The type [number], under a name the field [number] of an element does
    not hide. *)
Definition jsNumber : Type := number.

Module Element.

(** Modelled from the spec: [src/modules/atom/elements.ts] is not among the
    sources.  Section 6 of the specification: an element record has the
    fields [number], [weight] and [symbol], the only ones the class reads. *)
Record t : Type := { number : jsNumber; weight : jsNumber; symbol : string }.

End Element.

(** [arr.length] *)
Definition arrayLength {A : Type} (arr : list A) : number :=
  Fin (INR (List.length arr)).

(** [arr[k]] for a number [k]: [None] is [undefined], the result when [k] is
    not the index of an element. *)
Definition arrayGet {A : Type} (arr : list A) (k : number) : option A :=
  match k with
  | Fin r =>
      if Number.isInteger r
      then if Rle_dec 0 r then nth_error arr (Z.to_nat (Int_part r)) else None
      else None
  | _ => None
  end.

(** [Atom.generateRandomAtom(pos)].  [elements] is the table of [./elements];
    [random0], [random1] and [random2] are what the successive calls of
    [Math.random()] return, and [generatedID] what the constructor gets from
    [generateUniqueID()].  [None] is the TypeError thrown on reading
    [element.number] when [element] is [undefined]. *)
Definition generateRandomAtom {Isotope : Type} (elements : list Element.t)
    (random0 random1 random2 : number) (generatedID : string)
    (pos : option Vector2.t) : option (Atom Isotope) :=
  let possibleElements := elements in
  let element :=
    arrayGet possibleElements
      (Math.floor (Number.multiply random0 (arrayLength possibleElements))) in
  let pos' :=
    orElse pos
      (Vector2.new (Number.multiply random1 (Fin 500))
         (Number.multiply random2 (Fin 500))) in
  match element with
  | None => None
  | Some element =>
      Some
        (constructor generatedID
           (Some
              {| AtomConfig.pos := Some pos'; AtomConfig.vel := None;
                 AtomConfig.size := None; AtomConfig.id := None;
                 AtomConfig.friction := None;
                 AtomConfig.properties :=
                   Some
                     {| atomicNumber := Some (Element.number element);
                        atomicMass := Some (Element.weight element);
                        symbol := Some (Element.symbol element);
                        electronConfiguration := None; atomicRadius := None;
                        electronegativity := None; ionizationEnergy := None;
                        electronAffinity := None; oxidationState := None;
                        protons := None; neutrons := None; electrons := None;
                        isotopes := None |} |}))
  end.

(** The calls [calcPosition(delta)] of successive frames, one per element of
    [deltas], on the same atom. *)
Fixpoint calcPositionFrames {Isotope : Type} (this : Atom Isotope)
    (deltas : list number) : Atom Isotope :=
  match deltas with
  | [] => this
  | delta :: rest => calcPositionFrames (calcPosition this delta) rest
  end.

(** The symbol alone: the properties record [{ symbol: s }]. *)
Definition symbolOnly (s : string) : AtomProperties Empty_set :=
  {| atomicNumber := None; atomicMass := None; symbol := Some s;
     electronConfiguration := None; atomicRadius := None;
     electronegativity := None; ionizationEnergy := None;
     electronAffinity := None; oxidationState := None; protons := None;
     neutrons := None; electrons := None; isotopes := None |}.

(** The configuration [{ properties: { atomicMass: mass } }]. *)
Definition massConfig (mass : number) : AtomConfig.t Empty_set :=
  {| AtomConfig.pos := None; AtomConfig.vel := None; AtomConfig.size := None;
     AtomConfig.id := None; AtomConfig.friction := None;
     AtomConfig.properties := Some (massOnly (Some mass)) |}.

(** A table of two elements: hydrogen and helium. *)
Definition twoElements : list Element.t :=
  [ {| Element.number := Fin 1; Element.weight := Fin 1.008; Element.symbol := "H" |};
    {| Element.number := Fin 2; Element.weight := Fin 4.0026; Element.symbol := "He" |} ].

(** One of the two components of the vector is NaN. *)
Definition hasNaN (v : Vector2.t) : bool :=
  isNaN (Vector2.x v) || isNaN (Vector2.y v).


(** The triangle of [triangleHeap] with a NaN abscissa for atom 0. *)
Definition nanHeap (r : ref) : Atom Empty_set :=
  match r with
  | O => atomAt (Vector2.new NaN (Fin 0))
  | _ => triangleHeap r
  end.

(** An atom at rest of the given size. *)
Definition atomOfSize (s : number) : Atom Empty_set :=
  {| pos := Vector2.new (Fin 0) (Fin 0); vel := Vector2.new (Fin 0) (Fin 0);
     selected := false; size := s; id := "a"; friction := Fin 1;
     properties := massOnly None |}.

(** The properties record [{ atomicNumber: z, atomicMass: m }]. *)
Definition numberAndMass (z m : number) : AtomProperties Empty_set :=
  {| atomicNumber := Some z; atomicMass := Some m; symbol := None;
     electronConfiguration := None; atomicRadius := None;
     electronegativity := None; ionizationEnergy := None;
     electronAffinity := None; oxidationState := None; protons := None;
     neutrons := None; electrons := None; isotopes := None |}.

(** ** Numbers with the two zeros, for the angle

    [calculateAngle] is sensitive to the sign of a zero: [Math.atan2] of
    [-0] and of [+0] over a negative abscissa are [-PI] and [PI].  The module
    below embeds it a second time, on numbers that keep the sign of a zero;
    arithmetic on the other finite values is exact, as above. *)

Module SignedZero.

(** A real, with the sign of the zero when it is zero ([negativeZero] is
    meaningless on another real and [real] sets it to [false]), or a special
    value. *)
Inductive t : Type :=
| Real (r : R) (negativeZero : bool)
| PosInfinity
| NegInfinity
| NaN.

Definition real (r : R) (negativeZero : bool) : t :=
  Real r (if Req_dec_T r 0 then negativeZero else false).

Definition isReal (a : t) : bool :=
  match a with
  | Real _ _ => true
  | _ => false
  end.

(** [a] is [-0]. *)
Definition isNegativeZero (a : t) : bool :=
  match a with
  | Real r b => if Req_dec_T r 0 then b else false
  | _ => false
  end.

(** The sign bit of [a]. *)
Definition isNegative (a : t) : bool :=
  match a with
  | Real r b => if Rlt_dec r 0 then true else if Req_dec_T r 0 then b else false
  | NegInfinity => true
  | _ => false
  end.

Definition infinity (negative : bool) : t :=
  if negative then NegInfinity else PosInfinity.

(** [-a] *)
Definition unaryMinus (a : t) : t :=
  match a with
  | Real r b => real (- r) (negb b)
  | PosInfinity => NegInfinity
  | NegInfinity => PosInfinity
  | NaN => NaN
  end.

(** [a + b]: a zero sum is [-0] only when both terms are [-0]. *)
Definition add (a b : t) : t :=
  match a, b with
  | Real r _, Real s _ => real (r + s) (isNegativeZero a && isNegativeZero b)
  | Real _ _, PosInfinity => PosInfinity
  | Real _ _, NegInfinity => NegInfinity
  | PosInfinity, Real _ _ => PosInfinity
  | PosInfinity, PosInfinity => PosInfinity
  | NegInfinity, Real _ _ => NegInfinity
  | NegInfinity, NegInfinity => NegInfinity
  | _, _ => NaN
  end.

(** [a - b] *)
Definition subtract (a b : t) : t := add a (unaryMinus b).

(** [a * b]: the sign is the exclusive or of the signs. *)
Definition multiply (a b : t) : t :=
  match a, b with
  | Real r _, Real s _ => real (r * s) (xorb (isNegative a) (isNegative b))
  | Real r _, (PosInfinity | NegInfinity) =>
      if Req_dec_T r 0 then NaN else infinity (xorb (isNegative a) (isNegative b))
  | (PosInfinity | NegInfinity), Real s _ =>
      if Req_dec_T s 0 then NaN else infinity (xorb (isNegative a) (isNegative b))
  | (PosInfinity | NegInfinity), (PosInfinity | NegInfinity) =>
      infinity (xorb (isNegative a) (isNegative b))
  | _, _ => NaN
  end.

(** [a / b] *)
Definition divide (a b : t) : t :=
  match a, b with
  | Real r _, Real s _ =>
      if Req_dec_T s 0
      then if Req_dec_T r 0 then NaN
           else infinity (xorb (isNegative a) (isNegative b))
      else real (r / s) (xorb (isNegative a) (isNegative b))
  | Real _ _, (PosInfinity | NegInfinity) =>
      real 0 (xorb (isNegative a) (isNegative b))
  | (PosInfinity | NegInfinity), Real _ _ =>
      infinity (xorb (isNegative a) (isNegative b))
  | _, _ => NaN
  end.

(** [a < b]: the two zeros are equal. *)
Definition lessThan (a b : t) : bool :=
  match a, b with
  | Real r _, Real s _ => if Rlt_dec r s then true else false
  | Real _ _, PosInfinity => true
  | NegInfinity, Real _ _ => true
  | NegInfinity, PosInfinity => true
  | _, _ => false
  end.

(** [Math.PI] *)
Definition PI : t := Real Rtrigo1.PI false.

(** [Math.atan2(b, a)], [b] the ordinate and [a] the abscissa. *)
Definition atan2 (b a : t) : t :=
  match b, a with
  | NaN, _ => NaN
  | _, NaN => NaN
  | Real w _, Real u _ =>
      if Req_dec_T w 0 then
        if isNegative a
        then if isNegativeZero b then Real (- Rtrigo1.PI) false else Real Rtrigo1.PI false
        else real 0 (isNegativeZero b)
      else if Req_dec_T u 0 then
        if Rlt_dec 0 w then Real (Rtrigo1.PI / 2) false else Real (- Rtrigo1.PI / 2) false
      else Real (Math.atan2R w u) false
  | Real _ _, PosInfinity => real 0 (isNegative b)
  | Real _ _, NegInfinity =>
      if isNegative b then Real (- Rtrigo1.PI) false else Real Rtrigo1.PI false
  | PosInfinity, Real _ _ => Real (Rtrigo1.PI / 2) false
  | NegInfinity, Real _ _ => Real (- Rtrigo1.PI / 2) false
  | PosInfinity, PosInfinity => Real (Rtrigo1.PI / 4) false
  | PosInfinity, NegInfinity => Real (3 * Rtrigo1.PI / 4) false
  | NegInfinity, PosInfinity => Real (- Rtrigo1.PI / 4) false
  | NegInfinity, NegInfinity => Real (- 3 * Rtrigo1.PI / 4) false
  end.

(** Modelled from the spec: a [Vector2] on these numbers, with the
    operation subtract of section 4.1. *)
Record vector : Type := newVector { x : t; y : t }.

(** Modelled from the spec: the operation subtract of section 4.1. *)
Definition sub (u v : vector) : vector :=
  newVector (subtract (x u) (x v)) (subtract (y u) (y v)).

(** [Atom.calculateAngle(bonds, atom1, atom2, atom3)]; [None] is [null].
    The only field of the atoms the function reads is [pos]: [position]
    gives the [pos] of the atom a reference points to. *)
Definition calculateAngle (position : ref -> vector) (bonds : list Bond)
    (atom1 atom2 atom3 : ref) : option t :=
  let isConnected :=
    isBondedWith atom1 bonds atom2 && isBondedWith atom2 bonds atom3
    && isBondedWith atom3 bonds atom1 in
  if negb isConnected then None
  else
    let vector1 := sub (position atom1) (position atom2) in
    let vector2 := sub (position atom3) (position atom2) in
    let angleInRadians :=
      subtract (atan2 (y vector2) (x vector2)) (atan2 (y vector1) (x vector1)) in
    let angleInRadians :=
      if lessThan angleInRadians (Real 0 false)
      then add angleInRadians (multiply (Real 2 false) PI)
      else angleInRadians in
    let angleInDegrees := multiply angleInRadians (divide (Real 180 false) PI) in
    Some angleInDegrees.

(** Both components of the vector are reals. *)
Definition finiteVector (v : vector) : bool := isReal (x v) && isReal (y v).

(** The bonded triangle (0, 0), (1, 0), (1, 1). *)
Definition trianglePositions (r : ref) : vector :=
  match r with
  | O => newVector (Real 0 false) (Real 0 false)
  | S O => newVector (Real 1 false) (Real 0 false)
  | _ => newVector (Real 1 false) (Real 1 false)
  end.

(** Atom 0 at (-1, -0), atom 1 at (0, 0), atom 2 (and the rest) at
    (-1, 0). *)
Definition negativeZeroPositions (r : ref) : vector :=
  match r with
  | O => newVector (Real (- 1) false) (Real 0 true)
  | S O => newVector (Real 0 false) (Real 0 false)
  | _ => newVector (Real (- 1) false) (Real 0 false)
  end.

End SignedZero.

(** The configuration
    [{ size: 0, friction: 0, properties: { atomicMass: 32 } }]. *)
Definition zeroMassConfig : AtomConfig.t Empty_set :=
  {| AtomConfig.pos := None; AtomConfig.vel := None;
     AtomConfig.size := Some (Fin 0); AtomConfig.id := None;
     AtomConfig.friction := Some (Fin 0);
     AtomConfig.properties := Some (massOnly (Some (Fin 32))) |}.

(** A bond 0-1 and a bond from atom 0 to itself. *)
Definition selfBonds : list Bond :=
  [ {| atom1 := 0%nat; atom2 := 1%nat |}; {| atom1 := 0%nat; atom2 := 0%nat |} ].

(** ** The arithmetic of [number] *)

(** Splits on every sign or equality test of reals in the goal. *)
Ltac split_tests :=
  repeat match goal with
    | |- context [Rlt_dec ?r ?s] => destruct (Rlt_dec r s)
    | |- context [Rle_dec ?r ?s] => destruct (Rle_dec r s)
    | |- context [Req_dec_T ?r ?s] => destruct (Req_dec_T r s)
    end.

(** A real that is neither positive nor negative is replaced by [0]. *)
Ltac find_zeros :=
  repeat match goal with
    | H1 : ~ 0 < ?r, H2 : ~ ?r < 0 |- _ =>
        let E := fresh "E" in
        assert (E : r = 0) by lra; clear H1 H2; try subst r
    end;
  repeat match goal with
    | H : _ |- _ => rewrite ?Rmult_0_l, ?Rmult_0_r in H
    end.

(** Closes a goal on numbers once the arguments are constructors. *)
Ltac number_case :=
  cbn [Number.multiply Number.add Number.divide Number.unaryMinus Number.subtract
       Number.scaleInfinity Number.infinity negb];
  unfold Number.scaleInfinity, Number.infinity; split_tests;
  cbn [Number.multiply Number.add Number.divide Number.unaryMinus
       Number.scaleInfinity Number.infinity negb];
  unfold Number.scaleInfinity, Number.infinity; split_tests;
  first [ reflexivity | f_equal; field; lra | f_equal; ring | exfalso; nra
        | exfalso; find_zeros; nra | idtac ].

Lemma multiply_comm (a b : number) : Number.multiply a b = Number.multiply b a.
Proof. destruct a, b; number_case. Qed.

Lemma multiply_assoc (a b c : number) :
  Number.multiply (Number.multiply a b) c = Number.multiply a (Number.multiply b c).
Proof. destruct a, b, c; number_case. Qed.

(** [(1 / l) * 20] is [20 / l]. *)
Lemma inverse_times_20 (l : number) :
  Number.multiply (Number.divide (Fin 1) l) (Fin 20) = Number.divide (Fin 20) l.
Proof. destruct l; number_case. Qed.

(** *** Finite arguments *)

Lemma divide_Fin (r s : R) :
  s <> 0 -> Number.divide (Fin r) (Fin s) = Fin (r / s).
Proof. intros Hs. cbn. destruct (Req_dec_T s 0); [contradiction | reflexivity]. Qed.

Lemma divide_Fin_zero (r : R) :
  0 < r -> Number.divide (Fin r) (Fin 0) = PosInfinity.
Proof.
  intros Hr. cbn. destruct (Req_dec_T 0 0); [| lra].
  unfold Number.scaleInfinity. destruct (Rlt_dec 0 r); [reflexivity | lra].
Qed.

Lemma sqrt_Fin (r : R) : 0 <= r -> Math.sqrt (Fin r) = Fin (sqrt r).
Proof. intros Hr. cbn. destruct (Rlt_dec r 0); [lra | reflexivity]. Qed.

Lemma log_Fin (r : R) : 0 < r -> Math.log (Fin r) = Fin (ln r).
Proof.
  intros Hr. cbn. destruct (Rlt_dec r 0); [lra |].
  destruct (Req_dec_T r 0); [lra | reflexivity].
Qed.

Lemma toBoolean_Fin (r : R) : r <> 0 -> toBoolean (Fin r) = true.
Proof.
  intros Hr. unfold toBoolean, number_ToBoolean. cbn.
  destruct (Req_dec_T r 0); [contradiction | reflexivity].
Qed.

Lemma toBoolean_zero : toBoolean (Fin 0) = false.
Proof.
  unfold toBoolean, number_ToBoolean. cbn.
  destruct (Req_dec_T 0 0); [reflexivity | lra].
Qed.

Lemma lessThan_Fin (r s : R) : Number.lessThan (Fin r) (Fin s) = true <-> r < s.
Proof. cbn. destruct (Rlt_dec r s); split; auto; discriminate. Qed.

Lemma lessThan_Fin_false (r s : R) : Number.lessThan (Fin r) (Fin s) = false <-> s <= r.
Proof. cbn. destruct (Rlt_dec r s); split; intros; try discriminate; lra. Qed.

Lemma lessThanOrEqual_Fin (r s : R) :
  Number.lessThanOrEqual (Fin r) (Fin s) = true <-> r <= s.
Proof. cbn. destruct (Rle_dec r s); split; auto; discriminate. Qed.

Lemma lessThanOrEqual_Fin_false (r s : R) :
  Number.lessThanOrEqual (Fin r) (Fin s) = false <-> s < r.
Proof. cbn. destruct (Rle_dec r s); split; intros; try discriminate; lra. Qed.

(** [b <= a] excludes [a < b], also on the special values. *)
Lemma lessThanOrEqual_not_lessThan (a b : number) :
  Number.lessThanOrEqual b a = true -> Number.lessThan a b = false.
Proof.
  destruct a, b; cbn; try reflexivity; try discriminate.
  destruct (Rle_dec r0 r), (Rlt_dec r r0); try reflexivity; try discriminate.
  lra.
Qed.

Lemma length_Fin (r s : R) :
  Vector2.length (Vector2.new (Fin r) (Fin s)) = Fin (sqrt (r * r + s * s)).
Proof. unfold Vector2.length. cbn [Vector2.x Vector2.y Number.multiply Number.add]. apply sqrt_Fin. nra. Qed.

(** *** Scaling a vector *)

Lemma multi_multi (u : Vector2.t) (a b : number) :
  Vector2.multi (Vector2.multi u a) b = Vector2.multi u (Number.multiply a b).
Proof. unfold Vector2.multi. cbn [Vector2.x Vector2.y]. now rewrite !multiply_assoc. Qed.

(** *** The logarithm of 2 *)

Lemma ln_2_lt_1 : ln 2 < 1.
Proof.
  rewrite <- (ln_exp 1). apply ln_increasing; [lra |].
  pose proof (exp_ineq1 1). lra.
Qed.

Lemma ln_2_pos : 0 < ln 2.
Proof. pose proof ln_lt_2. lra. Qed.

Lemma log_zero : Math.log (Fin 0) = NegInfinity.
Proof.
  cbn. destruct (Rlt_dec 0 0); [lra |].
  destruct (Req_dec_T 0 0); [reflexivity | lra].
Qed.

Lemma log_2 : Math.log (Fin 2) = Fin (ln 2).
Proof. apply log_Fin. lra. Qed.

Lemma sqrt_unit_x : sqrt (1 * 1 + 0 * 0) = 1.
Proof. replace (1 * 1 + 0 * 0) with 1 by ring. apply sqrt_1. Qed.

(** ** calcPosition *)

Section CalcPosition.

Context {Isotope : Type}.
Variable this : Atom Isotope.
Variable delta : number.

(** The scalar of the code is [delta * k]. *)
Lemma stepScale_spec :
  stepScale this delta
  = Number.multiply delta (specDamping (orElse (atomicMass (properties this)) (Fin 2))).
Proof.
  unfold stepScale, specDamping.
  now rewrite multiply_assoc, inverse_times_20.
Qed.

(** The branch taken when the speed test fails. *)
Lemma calcPosition_moving :
  Number.lessThan (Vector2.length (vel this)) (Fin 0.00001) = false ->
  let k := specDamping (orElse (atomicMass (properties this)) (Fin 2)) in
  let v' := specVelocity (vel this) (friction this) delta k in
  calcPosition this delta = set_pos (set_vel this v') (specPosition (pos this) v' delta k).
Proof.
  intros Hv k v'. unfold calcPosition. rewrite Hv.
  cbn [pos vel set_vel set_pos].
  assert (Hs : stepScale (set_vel this
              (Vector2.sum (vel this)
                 (Vector2.multi
                    (Vector2.multi (vel this) (Number.unaryMinus (friction this)))
                    (stepScale this delta)))) delta = stepScale this delta) by reflexivity.
  rewrite Hs, stepScale_spec. fold k.
  unfold v', specVelocity, specPosition. now rewrite !multi_multi.
Qed.

(** The branch taken when the speed test succeeds. *)
Lemma calcPosition_resting :
  Number.lessThan (Vector2.length (vel this)) (Fin 0.00001) = true ->
  calcPosition this delta = set_vel this (Vector2.new (Fin 0) (Fin 0)).
Proof. intros Hv. unfold calcPosition. now rewrite Hv. Qed.

End CalcPosition.

(** C1 (amended): for an atom whose speed is at least 1e-5, [calcPosition]
    sets the velocity to [v' = v + (v * -friction) * delta * k] and then the
    position to [p + v' * delta * k], with the updated velocity [v'], where
    [k = 20 / ln(m)] and [m] is [atomicMass || 2]: the atomic mass when it is
    present and truthy, and 2 when it is absent, zero or NaN. *)
Theorem calcPosition_semi_implicit_euler {Isotope : Type}
    (this : Atom Isotope) (delta : number) :
  Number.lessThanOrEqual (Fin 0.00001) (Vector2.length (vel this)) = true ->
  let m := orElse (atomicMass (properties this)) (Fin 2) in
  let k := specDamping m in
  let v' := specVelocity (vel this) (friction this) delta k in
  vel (calcPosition this delta) = v'
  /\ pos (calcPosition this delta) = specPosition (pos this) v' delta k
  /\ (forall n, atomicMass (properties this) = Some n -> toBoolean n = true -> m = n)
  /\ (truthy (atomicMass (properties this)) = false -> m = Fin 2).
Proof.
  intros Hv m k v'.
  apply lessThanOrEqual_not_lessThan in Hv.
  rewrite (calcPosition_moving this delta Hv). cbn [pos vel set_pos set_vel].
  repeat split.
  - intros n Hn Ht. unfold m, orElse. now rewrite Hn, Ht.
  - unfold m, orElse, truthy. destruct (atomicMass (properties this)); [| reflexivity].
    now intros ->.
Qed.

Lemma calcPosition_semi_implicit_euler_witness :
  let this := atomWith (Vector2.new (Fin 1) (Fin 0)) (Fin 1) (massOnly None) in
  Number.lessThanOrEqual (Fin 0.00001) (Vector2.length (vel this)) = true
  /\ vel (calcPosition this (Fin 1))
     = specVelocity (vel this) (friction this) (Fin 1) (specDamping (Fin 2)).
Proof.
  assert (Hv : Number.lessThanOrEqual (Fin 0.00001)
                 (Vector2.length (Vector2.new (Fin 1) (Fin 0))) = true).
  { rewrite length_Fin, sqrt_unit_x. apply lessThanOrEqual_Fin. lra. }
  split; [exact Hv |].
  exact (proj1 (calcPosition_semi_implicit_euler
                  (atomWith (Vector2.new (Fin 1) (Fin 0)) (Fin 1) (massOnly None))
                  (Fin 1) Hv)).
Defined.

(** C1, as the claim words it, fails: with [atomicMass = 0] (present) the
    code takes the mass 2, while the claim's [k] is [20 / ln(0)]. *)
Lemma calcPosition_mass_zero_counterexample :
  let this := atomWith (Vector2.new (Fin 1) (Fin 0)) (Fin 1) (massOnly (Some (Fin 0))) in
  Number.lessThanOrEqual (Fin 0.00001) (Vector2.length (vel this)) = true
  /\ vel (calcPosition this (Fin 1))
     <> specVelocity (vel this) (friction this) (Fin 1)
          (specDamping (nullishOr (atomicMass (properties this)) (Fin 2))).
Proof.
  assert (Hv : Number.lessThanOrEqual (Fin 0.00001)
                 (Vector2.length (Vector2.new (Fin 1) (Fin 0))) = true).
  { rewrite length_Fin, sqrt_unit_x. apply lessThanOrEqual_Fin. lra. }
  split; [exact Hv |].
  apply lessThanOrEqual_not_lessThan in Hv.
  rewrite (calcPosition_moving
             (atomWith (Vector2.new (Fin 1) (Fin 0)) (Fin 1) (massOnly (Some (Fin 0))))
             (Fin 1) Hv).
  cbn [pos vel set_pos set_vel atomWith friction properties massOnly atomicMass
       nullishOr orElse].
  rewrite toBoolean_zero. unfold specDamping. rewrite log_zero, log_2.
  rewrite divide_Fin by (pose proof ln_2_pos; lra).
  cbn. intros H. injection H as H.
  pose proof (Rinv_0_lt_compat _ ln_2_pos). lra.
Qed.

(** C3: when the speed is below 1e-5 before the call, the velocity is exactly
    (0, 0) after it and the position is unchanged, whatever [delta] is. *)
Theorem calcPosition_snaps_to_rest {Isotope : Type}
    (this : Atom Isotope) (delta : number) :
  Number.lessThan (Vector2.length (vel this)) (Fin 0.00001) = true ->
  vel (calcPosition this delta) = Vector2.new (Fin 0) (Fin 0)
  /\ pos (calcPosition this delta) = pos this.
Proof. intros Hv. rewrite (calcPosition_resting this delta Hv). now split. Qed.

Lemma calcPosition_snaps_to_rest_witness :
  let this := atomWith (Vector2.new (Fin 0.000001) (Fin 0)) (Fin 1) (massOnly None) in
  Number.lessThan (Vector2.length (vel this)) (Fin 0.00001) = true
  /\ vel (calcPosition this (Fin 1)) = Vector2.new (Fin 0) (Fin 0)
  /\ pos (calcPosition this (Fin 1)) = pos this.
Proof.
  assert (Hv : Number.lessThan
                 (Vector2.length (Vector2.new (Fin 0.000001) (Fin 0)))
                 (Fin 0.00001) = true).
  { rewrite length_Fin. apply lessThan_Fin.
    replace (0.000001 * 0.000001 + 0 * 0) with (0.000001 * 0.000001) by ring.
    rewrite sqrt_square; lra. }
  split; [exact Hv |].
  exact (calcPosition_snaps_to_rest
           (atomWith (Vector2.new (Fin 0.000001) (Fin 0)) (Fin 1) (massOnly None))
           (Fin 1) Hv).
Defined.

(** *** One step on finite data *)

Section FiniteStep.

Context {Isotope : Type}.
Variable this : Atom Isotope.
Variables vx vy f d m : R.

Hypothesis vel_finite : vel this = Vector2.new (Fin vx) (Fin vy).
Hypothesis friction_finite : friction this = Fin f.
Hypothesis mass_finite : orElse (atomicMass (properties this)) (Fin 2) = Fin m.
Hypothesis mass_pos : 0 < m.
Hypothesis mass_not_1 : m <> 1.

(** The friction times the scalar of the step: [f * delta * k]. *)
Local Abbreviation c := (f * d * (20 / ln m)).

(** The moving branch scales the velocity by [1 - f * delta * k]. *)
Lemma moving_velocity :
  Number.lessThan (Vector2.length (vel this)) (Fin 0.00001) = false ->
  vel (calcPosition this (Fin d))
  = Vector2.new (Fin (vx * (1 - c))) (Fin (vy * (1 - c))).
Proof.
  intros Hv. rewrite (calcPosition_moving this (Fin d) Hv).
  cbn [vel set_pos set_vel]. unfold specVelocity, specDamping.
  rewrite mass_finite, vel_finite, friction_finite.
  rewrite (log_Fin m mass_pos).
  rewrite divide_Fin by (apply ln_neq_0; assumption).
  unfold Vector2.sum, Vector2.multi.
  cbn [Vector2.x Vector2.y Number.multiply Number.add Number.unaryMinus].
  f_equal; f_equal; ring.
Qed.

(** Within [0 <= f * delta * k <= 2] a step does not increase the speed. *)
Lemma step_damps :
  0 <= c <= 2 ->
  Number.lessThanOrEqual (Vector2.length (vel (calcPosition this (Fin d))))
    (Vector2.length (vel this)) = true.
Proof.
  intros Hc.
  destruct (Number.lessThan (Vector2.length (vel this)) (Fin 0.00001)) eqn:Hv.
  - rewrite (calcPosition_resting this (Fin d) Hv). cbn [vel set_vel].
    rewrite vel_finite, !length_Fin. apply lessThanOrEqual_Fin.
    replace (0 * 0 + 0 * 0) with 0 by ring. rewrite sqrt_0. apply sqrt_pos.
  - rewrite (moving_velocity Hv), vel_finite, !length_Fin.
    apply lessThanOrEqual_Fin.
    assert (Hq : (1 - c) * (1 - c) <= 1) by nra.
    assert (HS : 0 <= vx * vx + vy * vy) by nra.
    replace (vx * (1 - c) * (vx * (1 - c)) + vy * (1 - c) * (vy * (1 - c)))
      with ((1 - c) * (1 - c) * (vx * vx + vy * vy)) by ring.
    pose proof (Rmult_le_compat_r _ _ _ HS Hq).
    apply sqrt_le_1; [apply Rmult_le_pos; [apply Rle_0_sqr | exact HS] | exact HS | lra].
Qed.

(** Outside that range a step of a moving atom increases the speed. *)
Lemma step_overshoots :
  Number.lessThanOrEqual (Fin 0.00001) (Vector2.length (vel this)) = true ->
  c < 0 \/ 2 < c ->
  Number.lessThanOrEqual (Vector2.length (vel (calcPosition this (Fin d))))
    (Vector2.length (vel this)) = false.
Proof.
  intros Hv Hc.
  assert (Hpos : 0 < vx * vx + vy * vy).
  { rewrite vel_finite, length_Fin in Hv. apply lessThanOrEqual_Fin in Hv.
    destruct (Rle_lt_dec (vx * vx + vy * vy) 0) as [Hz | Hz]; [| exact Hz].
    assert (Hz' : vx * vx + vy * vy = 0) by nra.
    rewrite Hz', sqrt_0 in Hv. lra. }
  apply lessThanOrEqual_not_lessThan in Hv.
  rewrite (moving_velocity Hv), vel_finite, !length_Fin.
  apply lessThanOrEqual_Fin_false.
  assert (Hq : 1 < (1 - c) * (1 - c)) by (destruct Hc; nra).
  replace (vx * (1 - c) * (vx * (1 - c)) + vy * (1 - c) * (vy * (1 - c)))
    with ((1 - c) * (1 - c) * (vx * vx + vy * vy)) by ring.
  pose proof (Rmult_lt_compat_r _ _ _ Hpos Hq).
  apply sqrt_lt_1; [lra | apply Rmult_le_pos; [apply Rle_0_sqr | lra] | lra].
Qed.

End FiniteStep.

(** *** Logarithms of the masses used below *)

Lemma ln_4_lower : / 2 < ln 4.
Proof.
  pose proof ln_lt_2.
  assert (ln 2 < ln 4) by (apply ln_increasing; lra). lra.
Qed.

(** The logarithm of the atomic mass of hydrogen. *)
Lemma ln_hydrogen_bounds : 0 < ln 1.008 < 0.008.
Proof.
  split.
  - rewrite <- ln_1. apply ln_increasing; lra.
  - assert (H : ln 1.008 < ln (exp 0.008)).
    { apply ln_increasing; [lra |]. pose proof (exp_ineq1 0.008). lra. }
    now rewrite ln_exp in H.
Qed.

(** C2 (amended): for an atom with finite non-zero velocity, friction
    [f > 0] and effective atomic mass [m > 0] other than 1 ([m] is
    [atomicMass || 2]), a call [calcPosition(delta)] with a finite [delta]
    such that [0 <= f * delta * (20 / ln m) <= 2 - 1e-6] leaves a speed that
    does not exceed the speed before the call.  The velocity, the friction
    and [delta] are of magnitude at most 1e100.  (In exact arithmetic the
    range extends to 2, lemma [step_damps]; the margin and the magnitudes
    keep the statement clear of the rounding and of the overflow of the
    doubles.) *)
Theorem calcPosition_damps_in_range {Isotope : Type}
    (this : Atom Isotope) (vx vy f d m : R) :
  vel this = Vector2.new (Fin vx) (Fin vy) ->
  vx <> 0 \/ vy <> 0 ->
  friction this = Fin f ->
  0 < f ->
  orElse (atomicMass (properties this)) (Fin 2) = Fin m ->
  0 < m ->
  m <> 1 ->
  - 1e100 <= vx <= 1e100 ->
  - 1e100 <= vy <= 1e100 ->
  f <= 1e100 ->
  - 1e100 <= d <= 1e100 ->
  0 <= f * d * (20 / ln m) <= 2 - 0.000001 ->
  Number.lessThanOrEqual (Vector2.length (vel (calcPosition this (Fin d))))
    (Vector2.length (vel this)) = true.
Proof.
  intros Hvel _ Hf _ Hm Hpos H1 _ _ _ _ Hc.
  apply (step_damps this vx vy f d m Hvel Hf Hm Hpos H1). lra.
Qed.

(** The scenario of the specification: mass 4, friction 1, velocity
    (10, 0), delta 0.016. *)
Lemma calcPosition_damps_in_range_witness :
  let this := atomWith (Vector2.new (Fin 10) (Fin 0)) (Fin 1) (massOnly (Some (Fin 4))) in
  Number.lessThanOrEqual (Vector2.length (vel (calcPosition this (Fin 0.016))))
    (Vector2.length (vel this)) = true.
Proof.
  apply (calcPosition_damps_in_range
           (atomWith (Vector2.new (Fin 10) (Fin 0)) (Fin 1) (massOnly (Some (Fin 4))))
           10 0 1 0.016 4).
  - reflexivity.
  - left. lra.
  - reflexivity.
  - lra.
  - cbn [atomWith properties massOnly atomicMass orElse].
    rewrite toBoolean_Fin by lra. reflexivity.
  - lra.
  - lra.
  - lra.
  - lra.
  - lra.
  - lra.
  - pose proof ln_4_lower as HL.
    assert (H0 : 0 < ln 4) by lra.
    pose proof (Rinv_0_lt_compat _ H0) as Hi.
    assert (Hi2 : / ln 4 < 2).
    { rewrite <- (Rinv_inv 2). apply Rinv_lt_contravar; [| lra].
      apply Rmult_lt_0_compat; lra. }
    unfold Rdiv. lra.
Defined.

(** C2, as the claim words it, fails: hydrogen (atomic mass 1.008) with
    friction 1 and velocity (10, 0) is faster after a step of delta 0.016. *)
Lemma calcPosition_hydrogen_speeds_up :
  let this :=
    atomWith (Vector2.new (Fin 10) (Fin 0)) (Fin 1) (massOnly (Some (Fin 1.008))) in
  Number.lessThanOrEqual (Vector2.length (vel (calcPosition this (Fin 0.016))))
    (Vector2.length (vel this)) = false.
Proof.
  apply (step_overshoots
           (atomWith (Vector2.new (Fin 10) (Fin 0)) (Fin 1) (massOnly (Some (Fin 1.008))))
           10 0 1 0.016 1.008).
  - reflexivity.
  - reflexivity.
  - cbn [atomWith properties massOnly atomicMass orElse].
    rewrite toBoolean_Fin by lra. reflexivity.
  - lra.
  - lra.
  - cbn [atomWith vel]. rewrite length_Fin. apply lessThanOrEqual_Fin.
    replace (10 * 10 + 0 * 0) with (10 * 10) by ring.
    rewrite sqrt_square; lra.
  - right. destruct ln_hydrogen_bounds as [H0 H1].
    assert (Hi : / 0.008 < / ln 1.008).
    { apply Rinv_lt_contravar; [| exact H1]. apply Rmult_lt_0_compat; lra. }
    unfold Rdiv. lra.
Qed.

(** *** Non-finite values propagate *)

Lemma multiply_nonfinite (a s : number) :
  isFinite s = false -> isFinite (Number.multiply a s) = false.
Proof.
  destruct a, s; cbn; try reflexivity; try discriminate; intros _;
    unfold Number.scaleInfinity; split_tests; reflexivity.
Qed.

Lemma add_nonfinite (a s : number) :
  isFinite s = false -> isFinite (Number.add a s) = false.
Proof. destruct a, s; cbn; try reflexivity; discriminate. Qed.

Lemma log_1 : Math.log (Fin 1) = Fin 0.
Proof. rewrite log_Fin by lra. now rewrite ln_1. Qed.

(** C4: for an atom with atomic mass exactly 1 and speed at least 1e-5, the
    damping factor of [calcPosition] divides by [ln(1) = 0]: the quotient is
    infinite, and after the call both components of the velocity and of the
    position are non-finite (an infinity or NaN), whatever [delta] and the
    friction are. *)
Theorem calcPosition_mass_one_singularity {Isotope : Type}
    (this : Atom Isotope) (delta : number) :
  atomicMass (properties this) = Some (Fin 1) ->
  Number.lessThanOrEqual (Fin 0.00001) (Vector2.length (vel this)) = true ->
  Math.log (orElse (atomicMass (properties this)) (Fin 2)) = Fin 0
  /\ Number.divide (Fin 1) (Math.log (orElse (atomicMass (properties this)) (Fin 2)))
     = PosInfinity
  /\ isFinite (Vector2.x (vel (calcPosition this delta))) = false
  /\ isFinite (Vector2.y (vel (calcPosition this delta))) = false
  /\ isFinite (Vector2.x (pos (calcPosition this delta))) = false
  /\ isFinite (Vector2.y (pos (calcPosition this delta))) = false.
Proof.
  intros Hm Hv.
  assert (Hmass : orElse (atomicMass (properties this)) (Fin 2) = Fin 1).
  { rewrite Hm. cbn [orElse]. now rewrite toBoolean_Fin by lra. }
  apply lessThanOrEqual_not_lessThan in Hv.
  rewrite (calcPosition_moving this delta Hv), Hmass, log_1.
  assert (Hk : specDamping (Fin 1) = PosInfinity).
  { unfold specDamping. rewrite log_1. apply divide_Fin_zero. lra. }
  rewrite Hk, divide_Fin_zero by lra.
  cbn [pos vel set_pos set_vel].
  unfold specPosition, specVelocity, Vector2.sum, Vector2.multi.
  cbn [Vector2.x Vector2.y].
  repeat split; apply add_nonfinite, multiply_nonfinite; reflexivity.
Qed.

Lemma calcPosition_mass_one_singularity_witness :
  let this := atomWith (Vector2.new (Fin 10) (Fin 0)) (Fin 1) (massOnly (Some (Fin 1))) in
  isFinite (Vector2.x (vel (calcPosition this (Fin 0.016)))) = false
  /\ isFinite (Vector2.y (vel (calcPosition this (Fin 0.016)))) = false
  /\ isFinite (Vector2.x (pos (calcPosition this (Fin 0.016)))) = false
  /\ isFinite (Vector2.y (pos (calcPosition this (Fin 0.016)))) = false.
Proof.
  assert (Hv : Number.lessThanOrEqual (Fin 0.00001)
                 (Vector2.length (Vector2.new (Fin 10) (Fin 0))) = true).
  { rewrite length_Fin. apply lessThanOrEqual_Fin.
    replace (10 * 10 + 0 * 0) with (10 * 10) by ring.
    rewrite sqrt_square; lra. }
  exact (proj2 (proj2 (calcPosition_mass_one_singularity
      (atomWith (Vector2.new (Fin 10) (Fin 0)) (Fin 1) (massOnly (Some (Fin 1))))
      (Fin 0.016) eq_refl Hv))).
Defined.

(** ** Bonds and the angle query *)

Lemma isBondedWith_bonded (bonds : list Bond) (a b : ref) :
  isBondedWith a bonds b = true <-> bonded bonds a b.
Proof.
  unfold isBondedWith, bonded. rewrite existsb_exists.
  split; intros [bond [Hin H]]; exists bond; split; try exact Hin.
  - apply orb_true_iff in H.
    destruct H as [H | H]; apply andb_true_iff in H; destruct H as [H1 H2];
      apply Nat.eqb_eq in H1, H2; auto.
  - apply orb_true_iff.
    destruct H as [[H1 H2] | [H1 H2]]; [left | right];
      apply andb_true_iff; split; apply Nat.eqb_eq; assumption.
Qed.

Lemma isBondedWith_not_bonded (bonds : list Bond) (a b : ref) :
  isBondedWith a bonds b = false <-> ~ bonded bonds a b.
Proof.
  rewrite <- isBondedWith_bonded.
  destruct (isBondedWith a bonds b); split; intros H.
  - discriminate.
  - now elim H.
  - discriminate.
  - reflexivity.
Qed.

Lemma finiteVector_inv (v : Vector2.t) :
  finiteVector v = true -> exists r s, v = Vector2.new (Fin r) (Fin s).
Proof.
  destruct v as [[r | | |] [s | | |]]; cbn; try discriminate.
  intros _. now exists r, s.
Qed.

(** *** The range of atan2 *)

Lemma atan2R_range (w u : R) : - PI < Math.atan2R w u <= PI.
Proof.
  pose proof PI_RGT_0 as Hpi. unfold Math.atan2R.
  destruct (Rlt_dec 0 u) as [Hu | Hu].
  - pose proof (atan_bound (w / u)). lra.
  - destruct (Rlt_dec u 0) as [Hu' | Hu'].
    + assert (Hinv : / u < 0) by (apply Rinv_lt_0_compat; exact Hu').
      destruct (Rlt_dec w 0) as [Hw | Hw].
      * assert (Hq : 0 < w / u).
        { unfold Rdiv. replace (w * / u) with ((- w) * (- / u)) by ring.
          apply Rmult_lt_0_compat; lra. }
        pose proof (atan_bound (w / u)).
        pose proof (atan_increasing 0 (w / u) Hq) as Hi. rewrite atan_0 in Hi. lra.
      * assert (Hq : w / u <= 0).
        { unfold Rdiv. replace (w * / u) with (- (w * (- / u))) by ring.
          assert (0 <= w * (- / u)) by (apply Rmult_le_pos; lra). lra. }
        pose proof (atan_bound (w / u)).
        destruct Hq as [Hq | Hq].
        -- pose proof (atan_increasing (w / u) 0 Hq) as Hi. rewrite atan_0 in Hi. lra.
        -- rewrite Hq, atan_0. lra.
    + destruct (Rlt_dec 0 w); [lra |]. destruct (Rlt_dec w 0); lra.
Qed.

Lemma atan2R_up (w : R) : 0 < w -> Math.atan2R w 0 = PI / 2.
Proof.
  intros Hw. unfold Math.atan2R.
  destruct (Rlt_dec 0 0); [lra |]. destruct (Rlt_dec 0 w); [reflexivity | lra].
Qed.

Lemma atan2R_left (u : R) : u < 0 -> Math.atan2R 0 u = PI.
Proof.
  intros Hu. unfold Math.atan2R.
  destruct (Rlt_dec 0 u); [lra |]. destruct (Rlt_dec u 0); [| lra].
  destruct (Rlt_dec 0 0); [lra |].
  unfold Rdiv. rewrite Rmult_0_l, atan_0. ring.
Qed.

(** Radians in [[0, 2 PI)] are degrees in [[0, 360)]. *)
Lemma degrees_range (r : R) : 0 <= r < 2 * PI -> 0 <= r * (180 / PI) < 360.
Proof.
  intros [H0 H1]. pose proof PI_RGT_0 as Hpi.
  assert (Hi : 0 < / PI) by (apply Rinv_0_lt_compat; lra).
  assert (Hk : 0 < 180 / PI) by (unfold Rdiv; lra).
  split.
  - apply Rmult_le_pos; lra.
  - replace 360 with (2 * PI * (180 / PI)) by (field; lra).
    apply Rmult_lt_compat_r; assumption.
Qed.

(** *** The angle on finite positions *)

Lemma angleDegreesR_range (ax ay bx by' cx cy : R) :
  0 <= angleDegreesR ax ay bx by' cx cy < 360.
Proof.
  unfold angleDegreesR.
  pose proof (atan2R_range (cy - by') (cx - bx)).
  pose proof (atan2R_range (ay - by') (ax - bx)).
  apply degrees_range.
  destruct (Rlt_dec _ 0); lra.
Qed.

Section CalculateAngle.

Context {Isotope : Type}.
Variable heap : ref -> Atom Isotope.
Variable bonds : list Bond.
Variables a b c : ref.

Lemma calculateAngle_null :
  calculateAngle heap bonds a b c = None
  <-> isBondedWith a bonds b && isBondedWith b bonds c && isBondedWith c bonds a = false.
Proof.
  unfold calculateAngle.
  destruct (isBondedWith a bonds b && isBondedWith b bonds c && isBondedWith c bonds a);
    cbn [negb]; split; intros H; try reflexivity; discriminate.
Qed.

Lemma calculateAngle_connected (ax ay bx by' cx cy : R) :
  pos (heap a) = Vector2.new (Fin ax) (Fin ay) ->
  pos (heap b) = Vector2.new (Fin bx) (Fin by') ->
  pos (heap c) = Vector2.new (Fin cx) (Fin cy) ->
  isBondedWith a bonds b && isBondedWith b bonds c && isBondedWith c bonds a = true ->
  calculateAngle heap bonds a b c = Some (Fin (angleDegreesR ax ay bx by' cx cy)).
Proof.
  intros Ha Hb Hc Hconn. unfold calculateAngle.
  rewrite Hconn, Ha, Hb, Hc. cbn [negb].
  unfold Vector2.sub, Number.subtract.
  cbn [Vector2.x Vector2.y Number.unaryMinus Number.add Math.atan2].
  unfold Math.PI. cbn [Number.multiply].
  rewrite divide_Fin by (pose proof PI_RGT_0; lra).
  unfold angleDegreesR, Rminus.
  cbn [Number.lessThan].
  destruct (Rlt_dec _ 0); reflexivity.
Qed.

End CalculateAngle.

(** *** The angle with the two zeros *)

Lemma degrees_range_closed (r : R) :
  0 <= r <= 2 * PI -> 0 <= r * (180 / PI) <= 360.
Proof.
  intros [H0 H1]. pose proof PI_RGT_0 as Hpi.
  assert (Hi : 0 < / PI) by (apply Rinv_0_lt_compat; lra).
  assert (Hk : 0 < 180 / PI) by (unfold Rdiv; lra).
  split.
  - apply Rmult_le_pos; lra.
  - replace 360 with (2 * PI * (180 / PI)) by (field; lra).
    apply Rmult_le_compat_r; lra.
Qed.

Lemma signed_finiteVector_inv (v : SignedZero.vector) :
  SignedZero.finiteVector v = true ->
  exists r s br bs,
    v = SignedZero.newVector (SignedZero.Real r br) (SignedZero.Real s bs).
Proof.
  destruct v as [[r br | | |] [s bs | | |]]; cbn; try discriminate.
  intros _. now exists r, s, br, bs.
Qed.

(** On reals [Math.atan2] is a real in [[-PI, PI]]. *)
Lemma signed_atan2_range (w u : R) (bw bu : bool) :
  exists angle flag,
    SignedZero.atan2 (SignedZero.Real w bw) (SignedZero.Real u bu)
    = SignedZero.Real angle flag
    /\ - PI <= angle <= PI.
Proof.
  pose proof PI_RGT_0 as Hpi. cbn [SignedZero.atan2].
  destruct (Req_dec_T w 0) as [Hw | Hw].
  - destruct (SignedZero.isNegative (SignedZero.Real u bu)).
    + destruct (SignedZero.isNegativeZero (SignedZero.Real w bw));
        eexists _, _; (split; [reflexivity | lra]).
    + unfold SignedZero.real. eexists _, _. split; [reflexivity | lra].
  - destruct (Req_dec_T u 0) as [Hu | Hu].
    + destruct (Rlt_dec 0 w); eexists _, _; (split; [reflexivity | lra]).
    + eexists _, _. split; [reflexivity |].
      pose proof (atan2R_range w u). lra.
Qed.

Lemma signed_subtract_Real (r s : R) (br bs : bool) :
  exists flag,
    SignedZero.subtract (SignedZero.Real r br) (SignedZero.Real s bs)
    = SignedZero.Real (r - s) flag.
Proof.
  unfold SignedZero.subtract, SignedZero.unaryMinus, SignedZero.real.
  cbn [SignedZero.add]. unfold SignedZero.real, Rminus. eexists. reflexivity.
Qed.

Section SignedCalculateAngle.

Variable position : ref -> SignedZero.vector.
Variable bonds : list Bond.
Variables a b c : ref.

Lemma signed_calculateAngle_null :
  SignedZero.calculateAngle position bonds a b c = None
  <-> isBondedWith a bonds b && isBondedWith b bonds c && isBondedWith c bonds a = false.
Proof.
  unfold SignedZero.calculateAngle.
  destruct (isBondedWith a bonds b && isBondedWith b bonds c && isBondedWith c bonds a);
    cbn [negb]; split; intros H; try reflexivity; discriminate.
Qed.

(** On a connected triple with real positions the result is a real in
    [[0, 360]]. *)
Lemma signed_calculateAngle_connected :
  SignedZero.finiteVector (position a) = true ->
  SignedZero.finiteVector (position b) = true ->
  SignedZero.finiteVector (position c) = true ->
  isBondedWith a bonds b && isBondedWith b bonds c && isBondedWith c bonds a = true ->
  exists degrees flag,
    SignedZero.calculateAngle position bonds a b c
    = Some (SignedZero.Real degrees flag)
    /\ 0 <= degrees <= 360.
Proof.
  intros Ha Hb Hc Hconn. pose proof PI_RGT_0 as Hpi.
  apply signed_finiteVector_inv in Ha, Hb, Hc.
  destruct Ha as (ax & ay & fax & fay & Ha), Hb as (bx & by' & fbx & fby & Hb),
    Hc as (cx & cy & fcx & fcy & Hc).
  unfold SignedZero.calculateAngle. rewrite Hconn, Ha, Hb, Hc. cbn [negb].
  unfold SignedZero.sub. cbn [SignedZero.x SignedZero.y].
  destruct (signed_subtract_Real ax bx fax fbx) as (f1 & ->).
  destruct (signed_subtract_Real ay by' fay fby) as (f2 & ->).
  destruct (signed_subtract_Real cx bx fcx fbx) as (f3 & ->).
  destruct (signed_subtract_Real cy by' fcy fby) as (f4 & ->).
  destruct (signed_atan2_range (cy - by') (cx - bx) f4 f3) as (t2 & g2 & -> & Ht2).
  destruct (signed_atan2_range (ay - by') (ax - bx) f2 f1) as (t1 & g1 & -> & Ht1).
  destruct (signed_subtract_Real t2 t1 g2 g1) as (g & ->).
  assert (Hdeg : SignedZero.divide (SignedZero.Real 180 false) SignedZero.PI
                 = SignedZero.Real (180 / PI) false).
  { unfold SignedZero.PI. cbn [SignedZero.divide].
    destruct (Req_dec_T PI 0); [lra |]. unfold SignedZero.real.
    assert (Hk : 0 < 180 / PI) by (apply Rdiv_lt_0_compat; lra).
    destruct (Req_dec_T (180 / PI) 0); [lra | reflexivity]. }
  rewrite Hdeg. cbn [SignedZero.lessThan].
  destruct (Rlt_dec (t2 - t1) 0) as [Hneg | Hpos].
  - unfold SignedZero.PI. cbn [SignedZero.multiply SignedZero.add].
    unfold SignedZero.real. cbn [SignedZero.multiply]. unfold SignedZero.real.
    eexists _, _. split; [reflexivity |]. apply degrees_range_closed. lra.
  - cbn [SignedZero.multiply]. unfold SignedZero.real.
    eexists _, _. split; [reflexivity |]. apply degrees_range_closed. lra.
Qed.

End SignedCalculateAngle.

(** C5 (amended): on atoms with finite positions,
    [calculateAngle(bonds, a, b, c)] returns [null] if and only if one of the
    three bonds a-b, b-c, c-a is missing from the list; when the three are
    present it returns a number of degrees in the closed interval
    [[0, 360]]. *)
Theorem calculateAngle_null_iff_bond_missing
    (position : ref -> SignedZero.vector) (bonds : list Bond) (a b c : ref) :
  SignedZero.finiteVector (position a) = true ->
  SignedZero.finiteVector (position b) = true ->
  SignedZero.finiteVector (position c) = true ->
  (SignedZero.calculateAngle position bonds a b c = None
   <-> ~ bonded bonds a b \/ ~ bonded bonds b c \/ ~ bonded bonds c a)
  /\ (bonded bonds a b /\ bonded bonds b c /\ bonded bonds c a ->
      exists (degrees : R) (negativeZero : bool),
        SignedZero.calculateAngle position bonds a b c
        = Some (SignedZero.Real degrees negativeZero)
        /\ 0 <= degrees <= 360).
Proof.
  intros Ha Hb Hc. split.
  - rewrite signed_calculateAngle_null, !andb_false_iff, !isBondedWith_not_bonded.
    tauto.
  - intros (Hab & Hbc & Hca).
    apply signed_calculateAngle_connected; try assumption.
    apply isBondedWith_bonded in Hab, Hbc, Hca. now rewrite Hab, Hbc, Hca.
Qed.

(** *** A bonded triangle *)

Lemma triangle_bonded :
  bonded triangleBonds 0%nat 1%nat /\ bonded triangleBonds 1%nat 2%nat
  /\ bonded triangleBonds 2%nat 0%nat.
Proof. repeat split; apply isBondedWith_bonded; reflexivity. Qed.

Lemma calculateAngle_null_iff_bond_missing_witness :
  (SignedZero.calculateAngle SignedZero.trianglePositions triangleBonds
     0%nat 1%nat 2%nat = None
   <-> ~ bonded triangleBonds 0%nat 1%nat \/ ~ bonded triangleBonds 1%nat 2%nat
       \/ ~ bonded triangleBonds 2%nat 0%nat)
  /\ (exists (degrees : R) (negativeZero : bool),
        SignedZero.calculateAngle SignedZero.trianglePositions triangleBonds
          0%nat 1%nat 2%nat = Some (SignedZero.Real degrees negativeZero)
        /\ 0 <= degrees <= 360).
Proof.
  split.
  - exact (proj1 (calculateAngle_null_iff_bond_missing SignedZero.trianglePositions
                    triangleBonds 0%nat 1%nat 2%nat eq_refl eq_refl eq_refl)).
  - exact (proj2 (calculateAngle_null_iff_bond_missing SignedZero.trianglePositions
                    triangleBonds 0%nat 1%nat 2%nat eq_refl eq_refl eq_refl)
             triangle_bonded).
Defined.

(** C5, as the claim words it, fails: the bonded atoms at (-1, -0), (0, 0)
    and (-1, 0) have finite positions, and the angle at (0, 0) is
    [atan2(0, -1) - atan2(-0, -1) = PI - (-PI)], a full turn: the result is
    360, outside [[0, 360)]. *)
Lemma calculateAngle_full_turn_counterexample :
  SignedZero.finiteVector (SignedZero.negativeZeroPositions 0%nat) = true
  /\ SignedZero.finiteVector (SignedZero.negativeZeroPositions 1%nat) = true
  /\ SignedZero.finiteVector (SignedZero.negativeZeroPositions 2%nat) = true
  /\ bonded triangleBonds 0%nat 1%nat /\ bonded triangleBonds 1%nat 2%nat
  /\ bonded triangleBonds 2%nat 0%nat
  /\ SignedZero.calculateAngle SignedZero.negativeZeroPositions triangleBonds
       0%nat 1%nat 2%nat = Some (SignedZero.Real 360 false)
  /\ ~ 360 < 360.
Proof.
  pose proof PI_RGT_0 as Hpi.
  repeat (split; [reflexivity || apply triangle_bonded |]).
  split; [| lra].
  assert (Hconn : isBondedWith 0%nat triangleBonds 1%nat
                  && isBondedWith 1%nat triangleBonds 2%nat
                  && isBondedWith 2%nat triangleBonds 0%nat = true) by reflexivity.
  unfold SignedZero.calculateAngle. rewrite Hconn.
  cbn [negb SignedZero.negativeZeroPositions SignedZero.sub SignedZero.x SignedZero.y].
  assert (Hy1 : SignedZero.subtract (SignedZero.Real 0 true) (SignedZero.Real 0 false)
                = SignedZero.Real 0 true).
  { unfold SignedZero.subtract, SignedZero.unaryMinus, SignedZero.real.
    cbn [SignedZero.add negb SignedZero.isNegativeZero].
    destruct (Req_dec_T (- 0) 0) as [_ | H]; [| lra].
    destruct (Req_dec_T 0 0) as [_ | H]; [| lra].
    unfold SignedZero.real. destruct (Req_dec_T (0 + - 0) 0) as [_ | H]; [| lra].
    cbn [andb]. f_equal. lra. }
  assert (Hy2 : SignedZero.subtract (SignedZero.Real 0 false) (SignedZero.Real 0 false)
                = SignedZero.Real 0 false).
  { unfold SignedZero.subtract, SignedZero.unaryMinus, SignedZero.real.
    cbn [SignedZero.add negb SignedZero.isNegativeZero].
    destruct (Req_dec_T 0 0) as [_ | H]; [| lra].
    unfold SignedZero.real. destruct (Req_dec_T (0 + - 0) 0) as [_ | H]; [| lra].
    cbn [andb]. f_equal. lra. }
  assert (Hx : SignedZero.subtract (SignedZero.Real (- 1) false) (SignedZero.Real 0 false)
               = SignedZero.Real (- 1) false).
  { unfold SignedZero.subtract, SignedZero.unaryMinus, SignedZero.real.
    cbn [SignedZero.add]. unfold SignedZero.real.
    destruct (Req_dec_T (- 1 + - 0) 0) as [H | _]; [lra |]. f_equal. lra. }
  rewrite Hy1, Hy2, Hx.
  assert (Ha2 : SignedZero.atan2 (SignedZero.Real 0 false) (SignedZero.Real (- 1) false)
                = SignedZero.Real PI false).
  { cbn. destruct (Req_dec_T 0 0) as [_ | H]; [| lra].
    destruct (Rlt_dec (- 1) 0) as [_ | H]; [reflexivity | lra]. }
  assert (Ha1 : SignedZero.atan2 (SignedZero.Real 0 true) (SignedZero.Real (- 1) false)
                = SignedZero.Real (- PI) false).
  { cbn. destruct (Req_dec_T 0 0) as [_ | H]; [| lra].
    destruct (Rlt_dec (- 1) 0) as [_ | H]; [reflexivity | lra]. }
  rewrite Ha2, Ha1.
  unfold SignedZero.subtract, SignedZero.unaryMinus, SignedZero.real.
  cbn [SignedZero.add]. unfold SignedZero.real.
  cbn [SignedZero.lessThan].
  destruct (Rlt_dec (PI + - - PI) 0) as [H | _]; [lra |].
  unfold SignedZero.PI. cbn [SignedZero.divide].
  destruct (Req_dec_T PI 0) as [H | _]; [lra |].
  unfold SignedZero.real. cbn [SignedZero.multiply]. unfold SignedZero.real.
  assert (E : (PI + - - PI) * (180 / PI) = 360) by (field; lra).
  rewrite E. destruct (Req_dec_T 360 0) as [H | _]; [lra | reflexivity].
Qed.

Lemma bonded_sym (bonds : list Bond) (a b : ref) :
  bonded bonds a b -> bonded bonds b a.
Proof. intros (bond & Hin & H). exists bond. tauto. Qed.

Lemma angleDegreesR_270 : angleDegreesR 0 0 1 0 1 1 = 270.
Proof.
  unfold angleDegreesR. pose proof PI_RGT_0 as Hpi.
  replace (1 - 0) with 1 by ring. replace (1 - 1) with 0 by ring.
  replace (0 - 0) with 0 by ring. replace (0 - 1) with (- 1) by ring.
  rewrite atan2R_up, atan2R_left by lra.
  destruct (Rlt_dec (PI / 2 - PI) 0); [field; lra | lra].
Qed.

Lemma angleDegreesR_90 : angleDegreesR 1 1 1 0 0 0 = 90.
Proof.
  unfold angleDegreesR. pose proof PI_RGT_0 as Hpi.
  replace (1 - 0) with 1 by ring. replace (1 - 1) with 0 by ring.
  replace (0 - 0) with 0 by ring. replace (0 - 1) with (- 1) by ring.
  rewrite atan2R_up, atan2R_left by lra.
  destruct (Rlt_dec (PI - PI / 2) 0); [lra | field; lra].
Qed.

(** The angle at (1, 0) of the triangle (0, 0), (1, 0), (1, 1), in both
    orders of the neighbours. *)
Lemma calculateAngle_corner {Isotope : Type}
    (heap : ref -> Atom Isotope) (bonds : list Bond) (a b c : ref) :
  pos (heap a) = Vector2.new (Fin 0) (Fin 0) ->
  pos (heap b) = Vector2.new (Fin 1) (Fin 0) ->
  pos (heap c) = Vector2.new (Fin 1) (Fin 1) ->
  bonded bonds a b -> bonded bonds b c -> bonded bonds c a ->
  calculateAngle heap bonds c b a = Some (Fin 90)
  /\ calculateAngle heap bonds a b c = Some (Fin 270).
Proof.
  intros Ha Hb Hc Hab Hbc Hca. split.
  - rewrite <- angleDegreesR_90. apply calculateAngle_connected; try assumption.
    apply bonded_sym in Hab, Hbc, Hca.
    apply isBondedWith_bonded in Hab, Hbc, Hca. now rewrite Hab, Hbc, Hca.
  - rewrite <- angleDegreesR_270. apply calculateAngle_connected; try assumption.
    apply isBondedWith_bonded in Hab, Hbc, Hca. now rewrite Hab, Hbc, Hca.
Qed.

(** C6 (amended): for three atoms at (0, 0), (1, 0) and (1, 1) that are
    pairwise bonded, [calculateAngle] with the vertex (1, 0) returns 90
    degrees when the neighbours are passed in the order (1, 1), (0, 0); in the
    order (0, 0), (1, 1) it returns 270 degrees. *)
Theorem calculateAngle_right_angle {Isotope : Type}
    (heap : ref -> Atom Isotope) (bonds : list Bond) (a b c : ref) :
  pos (heap a) = Vector2.new (Fin 0) (Fin 0) ->
  pos (heap b) = Vector2.new (Fin 1) (Fin 0) ->
  pos (heap c) = Vector2.new (Fin 1) (Fin 1) ->
  bonded bonds a b -> bonded bonds b c -> bonded bonds c a ->
  calculateAngle heap bonds c b a = Some (Fin 90)
  /\ calculateAngle heap bonds a b c = Some (Fin 270).
Proof. apply calculateAngle_corner. Qed.

Lemma calculateAngle_right_angle_witness :
  calculateAngle triangleHeap triangleBonds 2%nat 1%nat 0%nat = Some (Fin 90)
  /\ calculateAngle triangleHeap triangleBonds 0%nat 1%nat 2%nat = Some (Fin 270).
Proof.
  exact (calculateAngle_right_angle triangleHeap triangleBonds 0%nat 1%nat 2%nat
           eq_refl eq_refl eq_refl
           (proj1 triangle_bonded) (proj1 (proj2 triangle_bonded))
           (proj2 (proj2 triangle_bonded))).
Defined.

(** C6, as the claim words it, fails: with the neighbours (0, 0) and (1, 1)
    in that order the result is 270 degrees, not 90. *)
Lemma calculateAngle_270_counterexample :
  calculateAngle triangleHeap triangleBonds 0%nat 1%nat 2%nat = Some (Fin 270)
  /\ calculateAngle triangleHeap triangleBonds 0%nat 1%nat 2%nat <> Some (Fin 90).
Proof.
  assert (H : calculateAngle triangleHeap triangleBonds 0%nat 1%nat 2%nat
              = Some (Fin 270)).
  { apply (calculateAngle_corner triangleHeap triangleBonds 0%nat 1%nat 2%nat);
      try reflexivity; apply triangle_bonded. }
  split; [exact H |]. rewrite H. intros E. injection E as E. lra.
Qed.

(** ** getAnimatedSize *)

(** A length is a non-negative real, [+Infinity] or [NaN]. *)
Lemma length_shape (v : Vector2.t) :
  (exists l, 0 <= l /\ Vector2.length v = Fin l)
  \/ Vector2.length v = PosInfinity
  \/ Vector2.length v = NaN.
Proof.
  unfold Vector2.length.
  destruct (Number.add _ _) as [r | | |]; cbn; auto.
  destruct (Rlt_dec r 0); auto.
  left. exists (sqrt r). split; [apply sqrt_pos | reflexivity].
Qed.

Lemma min_Fin (l t : R) : Math.min (Fin l) (Fin t) = Fin (Rmin l t).
Proof.
  cbn. unfold Rmin. destruct (Rlt_dec t l), (Rle_dec l t); try reflexivity; lra.
Qed.

Lemma animatedR_monotone (s l1 l2 : R) :
  0 < s -> l1 <= l2 -> animatedR s l1 <= animatedR s l2.
Proof.
  intros Hs Hl. unfold animatedR.
  assert (Hi : 0 < / (s * 10)) by (apply Rinv_0_lt_compat; lra).
  assert (Hm : Rmin l1 (s * 2) <= Rmin l2 (s * 2)).
  { apply Rle_min_compat_r. exact Hl. }
  apply Rmult_le_compat_l; [lra |].
  apply Rplus_le_compat_l. unfold Rdiv.
  apply Rmult_le_compat_r; lra.
Qed.

(** At the cap the animated size is [1.2 * s]. *)
Lemma animatedR_cap (s l : R) : 0 < s -> s * 2 <= l -> animatedR s l = s * 1.2.
Proof.
  intros Hs Hl. unfold animatedR. rewrite Rmin_right by exact Hl.
  replace (s * 2 / (s * 10)) with (/ 5) by (field; lra). lra.
Qed.

Lemma animatedR_bound (s l : R) : 0 < s -> animatedR s l <= s * 3.
Proof.
  intros Hs.
  destruct (Rle_lt_dec l (s * 2)) as [Hl | Hl].
  - apply Rle_trans with (animatedR s (s * 2)).
    + apply animatedR_monotone; assumption.
    + rewrite animatedR_cap; lra.
  - rewrite animatedR_cap; lra.
Qed.

Section AnimatedSize.

Context {Isotope : Type}.
Variable this : Atom Isotope.
Variable s : R.
Hypothesis size_finite : size this = Fin s.
Hypothesis size_pos : 0 < s.

Lemma getAnimatedSize_Fin (l : R) :
  Vector2.length (vel this) = Fin l ->
  getAnimatedSize this = Fin (animatedR s l).
Proof.
  intros Hl. unfold getAnimatedSize. rewrite size_finite, Hl.
  cbn [Number.multiply]. rewrite min_Fin, divide_Fin by lra. reflexivity.
Qed.

Lemma getAnimatedSize_PosInfinity :
  Vector2.length (vel this) = PosInfinity ->
  getAnimatedSize this = Fin (s * 1.2).
Proof.
  intros Hl. unfold getAnimatedSize. rewrite size_finite, Hl.
  cbn [Number.multiply Math.min Number.lessThan].
  rewrite divide_Fin by lra. cbn [Number.add Number.multiply]. f_equal.
  replace (s * 2 / (s * 10)) with (/ 5) by (field; lra). lra.
Qed.

Lemma getAnimatedSize_bounded :
  isNaN (Vector2.length (vel this)) = false ->
  Number.lessThanOrEqual (getAnimatedSize this) (Fin (s * 3)) = true.
Proof.
  intros Hn.
  destruct (length_shape (vel this)) as [(l & Hl0 & Hl) | [Hl | Hl]].
  - rewrite (getAnimatedSize_Fin l Hl). apply lessThanOrEqual_Fin.
    apply animatedR_bound. exact size_pos.
  - rewrite (getAnimatedSize_PosInfinity Hl). apply lessThanOrEqual_Fin. lra.
  - rewrite Hl in Hn. discriminate.
Qed.

Lemma getAnimatedSize_NaN :
  Vector2.length (vel this) = NaN -> getAnimatedSize this = NaN.
Proof.
  intros Hl. unfold getAnimatedSize. rewrite size_finite, Hl. reflexivity.
Qed.

(** The animated size is never above [s * 3], whatever the velocity is. *)
Lemma getAnimatedSize_never_above :
  Number.lessThan (Fin (s * 3)) (getAnimatedSize this) = false.
Proof.
  destruct (length_shape (vel this)) as [(l & Hl0 & Hl) | [Hl | Hl]].
  - rewrite (getAnimatedSize_Fin l Hl). apply lessThan_Fin_false.
    apply animatedR_bound. exact size_pos.
  - rewrite (getAnimatedSize_PosInfinity Hl). apply lessThan_Fin_false. lra.
  - rewrite (getAnimatedSize_NaN Hl). reflexivity.
Qed.

End AnimatedSize.

Lemma getAnimatedSize_monotone {Isotope : Type} (this other : Atom Isotope) (s : R) :
  size this = Fin s -> size other = Fin s -> 0 < s ->
  Number.lessThanOrEqual (Vector2.length (vel this)) (Vector2.length (vel other)) = true ->
  Number.lessThanOrEqual (getAnimatedSize this) (getAnimatedSize other) = true.
Proof.
  intros Hs Hs' Hpos Hle.
  destruct (length_shape (vel this)) as [(l1 & Hl1 & E1) | [E1 | E1]];
    destruct (length_shape (vel other)) as [(l2 & Hl2 & E2) | [E2 | E2]];
    rewrite E1, E2 in Hle; try discriminate.
  - rewrite (getAnimatedSize_Fin this s Hs Hpos l1 E1).
    rewrite (getAnimatedSize_Fin other s Hs' Hpos l2 E2).
    apply lessThanOrEqual_Fin. apply animatedR_monotone; [exact Hpos |].
    now apply lessThanOrEqual_Fin.
  - rewrite (getAnimatedSize_Fin this s Hs Hpos l1 E1).
    rewrite (getAnimatedSize_PosInfinity other s Hs' Hpos E2).
    apply lessThanOrEqual_Fin.
    destruct (Rle_lt_dec l1 (s * 2)) as [Hc | Hc].
    + rewrite <- (animatedR_cap s (s * 2)) by lra.
      apply animatedR_monotone; assumption.
    + rewrite animatedR_cap; lra.
  - rewrite (getAnimatedSize_PosInfinity this s Hs Hpos E1).
    rewrite (getAnimatedSize_PosInfinity other s Hs' Hpos E2).
    apply lessThanOrEqual_Fin. lra.
Qed.

(** C7: for an atom of size [s > 0], [getAnimatedSize()] is
    [s * (1 + min(|velocity|, s * 2) / (s * 10))]; it does not decrease when
    the speed grows, the size being fixed; and it is never above [s * 3]
    (it is at most [s * 3] whenever the speed is not NaN). *)
Theorem getAnimatedSize_formula_monotone_bounded {Isotope : Type}
    (this : Atom Isotope) (s : R) :
  size this = Fin s ->
  0 < s ->
  getAnimatedSize this
  = Number.multiply (Fin s)
      (Number.add (Fin 1)
         (Number.divide (Math.min (Vector2.length (vel this)) (Fin (s * 2)))
            (Fin (s * 10))))
  /\ (forall vx vy : R,
         vel this = Vector2.new (Fin vx) (Fin vy) ->
         getAnimatedSize this
         = Fin (s * (1 + Rmin (sqrt (vx * vx + vy * vy)) (s * 2) / (s * 10))))
  /\ (forall other : Atom Isotope,
         size other = Fin s ->
         Number.lessThanOrEqual (Vector2.length (vel this))
           (Vector2.length (vel other)) = true ->
         Number.lessThanOrEqual (getAnimatedSize this) (getAnimatedSize other) = true)
  /\ Number.lessThan (Fin (s * 3)) (getAnimatedSize this) = false
  /\ (isNaN (Vector2.length (vel this)) = false ->
      Number.lessThanOrEqual (getAnimatedSize this) (Fin (s * 3)) = true).
Proof.
  intros Hs Hpos. repeat split.
  - unfold getAnimatedSize. now rewrite Hs.
  - intros vx vy Hv. apply (getAnimatedSize_Fin this s Hs Hpos).
    rewrite Hv. apply length_Fin.
  - intros other Hs' Hle. exact (getAnimatedSize_monotone this other s Hs Hs' Hpos Hle).
  - exact (getAnimatedSize_never_above this s Hs Hpos).
  - exact (getAnimatedSize_bounded this s Hs Hpos).
Qed.

(** Size 25 and velocity (3, 4), and the same atom at velocity (6, 8). *)
Lemma getAnimatedSize_formula_monotone_bounded_witness :
  let this := atomWith (Vector2.new (Fin 3) (Fin 4)) (Fin 1) (massOnly None) in
  let other := atomWith (Vector2.new (Fin 6) (Fin 8)) (Fin 1) (massOnly None) in
  getAnimatedSize this
  = Fin (25 * (1 + Rmin (sqrt (3 * 3 + 4 * 4)) (25 * 2) / (25 * 10)))
  /\ Number.lessThanOrEqual (getAnimatedSize this) (getAnimatedSize other) = true
  /\ Number.lessThanOrEqual (getAnimatedSize this) (Fin (25 * 3)) = true.
Proof.
  assert (Hpos : 0 < 25) by lra.
  assert (Hn : isNaN (Vector2.length (Vector2.new (Fin 3) (Fin 4))) = false).
  { rewrite length_Fin. reflexivity. }
  assert (Hle : Number.lessThanOrEqual
                  (Vector2.length (Vector2.new (Fin 3) (Fin 4)))
                  (Vector2.length (Vector2.new (Fin 6) (Fin 8))) = true).
  { rewrite !length_Fin. apply lessThanOrEqual_Fin.
    apply sqrt_le_1; lra. }
  pose proof (getAnimatedSize_formula_monotone_bounded
                (atomWith (Vector2.new (Fin 3) (Fin 4)) (Fin 1) (massOnly None))
                25 eq_refl Hpos) as (_ & T1 & T2 & _ & T4).
  split; [| split].
  - apply T1. reflexivity.
  - apply (T2 (atomWith (Vector2.new (Fin 6) (Fin 8)) (Fin 1) (massOnly None)) eq_refl Hle).
  - apply (T4 Hn).
Defined.

(** ** getStyle *)

(** [Math.max(lo, Math.min(hi, n))] lies in [[lo, hi]] unless [n] is NaN. *)
Lemma clamp_range (lo hi : R) (n : number) :
  lo <= hi ->
  isNaN n = false ->
  Number.lessThanOrEqual (Fin lo) (Math.max (Fin lo) (Math.min (Fin hi) n)) = true
  /\ Number.lessThanOrEqual (Math.max (Fin lo) (Math.min (Fin hi) n)) (Fin hi) = true.
Proof.
  intros Hlh Hn. destruct n as [r | | |]; try discriminate.
  - cbn [Math.min Number.lessThan].
    destruct (Rlt_dec r hi); cbn [Math.max Number.lessThan].
    + destruct (Rlt_dec lo r); split; apply lessThanOrEqual_Fin; lra.
    + destruct (Rlt_dec lo hi); split; apply lessThanOrEqual_Fin; lra.
  - cbn [Math.min Number.lessThan Math.max].
    destruct (Rlt_dec lo hi); split; apply lessThanOrEqual_Fin; lra.
  - cbn [Math.min Number.lessThan Math.max].
    split; apply lessThanOrEqual_Fin; lra.
Qed.

Lemma toBoolean_not_NaN (n : number) : toBoolean n = true -> isNaN n = false.
Proof. destruct n; try reflexivity. discriminate. Qed.

Lemma divide_positive_not_NaN (n : number) (d : R) :
  0 < d -> isNaN n = false -> isNaN (Number.divide n (Fin d)) = false.
Proof.
  intros Hd Hn. destruct n; try discriminate; cbn.
  - destruct (Req_dec_T d 0); [lra | reflexivity].
  - destruct (Rlt_dec d 0); reflexivity.
  - destruct (Rlt_dec d 0); reflexivity.
Qed.

(** C8: whatever the properties are, absent fields included, the record
    [getStyle()] returns has [atomicNumberSize] in [[8, 20]],
    [atomicMassSize] in [[6, 14]] and [symbolFontSize] in [[16, 32]]. *)
Theorem getStyle_sizes_in_range {Isotope : Type} (this : Atom Isotope) :
  (Number.lessThanOrEqual (Fin 8) (atomicNumberSize (getStyle this)) = true
   /\ Number.lessThanOrEqual (atomicNumberSize (getStyle this)) (Fin 20) = true)
  /\ (Number.lessThanOrEqual (Fin 6) (atomicMassSize (getStyle this)) = true
      /\ Number.lessThanOrEqual (atomicMassSize (getStyle this)) (Fin 14) = true)
  /\ (Number.lessThanOrEqual (Fin 16) (symbolFontSize (getStyle this)) = true
      /\ Number.lessThanOrEqual (symbolFontSize (getStyle this)) (Fin 32) = true).
Proof.
  unfold getStyle. cbn [atomicNumberSize atomicMassSize symbolFontSize].
  repeat apply conj.
  1, 2: destruct (atomicNumber (properties this)) as [n |];
    [destruct (toBoolean n) eqn:Ht;
       [apply clamp_range;
          [lra | apply divide_positive_not_NaN; [lra | now apply toBoolean_not_NaN]]
       | apply lessThanOrEqual_Fin; lra]
    | apply lessThanOrEqual_Fin; lra].
  1, 2: destruct (atomicMass (properties this)) as [n |];
    [destruct (toBoolean n) eqn:Ht;
       [apply clamp_range;
          [lra | apply divide_positive_not_NaN; [lra | now apply toBoolean_not_NaN]]
       | apply lessThanOrEqual_Fin; lra]
    | apply lessThanOrEqual_Fin; lra].
  1, 2: destruct (symbol (properties this)) as [n |];
    [destruct (toBoolean n) eqn:Ht;
       [apply clamp_range; [lra | reflexivity]
       | apply lessThanOrEqual_Fin; lra]
    | apply lessThanOrEqual_Fin; lra].
Qed.

Lemma truthy_number_false (v : option number) :
  truthy v = false <-> v = None \/ v = Some (Fin 0) \/ v = Some NaN.
Proof.
  unfold truthy, toBoolean, number_ToBoolean. split.
  - destruct v as [[r | | |] |]; cbn; try discriminate; auto.
    destruct (Req_dec_T r 0) as [-> | ]; [auto | discriminate].
  - intros [-> | [-> | ->]]; try reflexivity.
    cbn. destruct (Req_dec_T 0 0); [reflexivity | lra].
Qed.

(** The colour on a truthy electronegativity. *)
Lemma getStyle_color_truthy {Isotope : Type} (this : Atom Isotope) (n : number) :
  electronegativity (properties this) = Some n ->
  toBoolean n = true ->
  color (getStyle this)
  = if Number.lessThanOrEqual n (Fin 1.0) then greenColor
    else if Number.lessThanOrEqual n (Fin 2.0) then yellowColor
    else redColor.
Proof. intros He Ht. unfold getStyle. cbn [color]. now rewrite He, Ht. Qed.

(** The colour on a falsy or absent electronegativity. *)
Lemma getStyle_color_falsy {Isotope : Type} (this : Atom Isotope) :
  truthy (electronegativity (properties this)) = false ->
  color (getStyle this) = neutralColor.
Proof.
  intros Ht. unfold getStyle. cbn [color]. unfold truthy in Ht.
  destruct (electronegativity (properties this)); [now rewrite Ht | reflexivity].
Qed.

(** C9 (amended): the colour of [getStyle()] follows the electronegativity
    in three bands when it is present and truthy (neither 0 nor NaN): green
    when it is at most 1.0, yellow when it is above 1.0 and at most 2.0, red
    above; the neutral default is returned when the electronegativity is
    absent, 0 or NaN, and only then. *)
Theorem getStyle_color_bands {Isotope : Type} (this : Atom Isotope) :
  (forall r : R,
      electronegativity (properties this) = Some (Fin r) -> r <> 0 ->
      (r <= 1 -> color (getStyle this) = greenColor)
      /\ (1 < r <= 2 -> color (getStyle this) = yellowColor)
      /\ (2 < r -> color (getStyle this) = redColor))
  /\ (electronegativity (properties this) = Some NegInfinity ->
      color (getStyle this) = greenColor)
  /\ (electronegativity (properties this) = Some PosInfinity ->
      color (getStyle this) = redColor)
  /\ (color (getStyle this) = neutralColor
      <-> electronegativity (properties this) = None
          \/ electronegativity (properties this) = Some (Fin 0)
          \/ electronegativity (properties this) = Some NaN).
Proof.
  split; [| split; [| split]].
  - intros r He Hr.
    rewrite (getStyle_color_truthy this (Fin r) He (toBoolean_Fin r Hr)).
    cbn [Number.lessThanOrEqual].
    repeat apply conj; intros H.
    + destruct (Rle_dec r 1.0); [reflexivity | lra].
    + destruct (Rle_dec r 1.0); [lra |]. destruct (Rle_dec r 2.0); [reflexivity | lra].
    + destruct (Rle_dec r 1.0); [lra |]. destruct (Rle_dec r 2.0); [lra | reflexivity].
  - intros He. now rewrite (getStyle_color_truthy this NegInfinity He eq_refl).
  - intros He. now rewrite (getStyle_color_truthy this PosInfinity He eq_refl).
  - rewrite <- truthy_number_false. split.
    + intros Hc.
      destruct (electronegativity (properties this)) as [n |] eqn:He; [| reflexivity].
      cbn [truthy]. destruct (toBoolean n) eqn:Ht; [| reflexivity].
      rewrite (getStyle_color_truthy this n He Ht) in Hc.
      destruct (Number.lessThanOrEqual n (Fin 1.0)); [discriminate |].
      destruct (Number.lessThanOrEqual n (Fin 2.0)); discriminate.
    + apply getStyle_color_falsy.
Qed.

(** Sodium, electronegativity 0.93: green. *)
Lemma getStyle_color_bands_witness :
  color (getStyle (atomWith (Vector2.new (Fin 0) (Fin 0)) (Fin 1)
                     (electronegativityOnly (Fin 0.93)))) = greenColor.
Proof.
  assert (H0 : 0.93 <> 0) by lra.
  assert (H1 : 0.93 <= 1) by lra.
  exact (proj1 (proj1 (getStyle_color_bands
                         (atomWith (Vector2.new (Fin 0) (Fin 0)) (Fin 1)
                            (electronegativityOnly (Fin 0.93))))
                  0.93 eq_refl H0) H1).
Defined.

(** C9, as the claim words it, fails: an electronegativity of 0 is present
    and at most 1.0, and the colour is the neutral default, not green. *)
Lemma getStyle_color_zero_counterexample :
  let this :=
    atomWith (Vector2.new (Fin 0) (Fin 0)) (Fin 1) (electronegativityOnly (Fin 0)) in
  electronegativity (properties this) = Some (Fin 0)
  /\ Number.lessThanOrEqual (Fin 0) (Fin 1.0) = true
  /\ color (getStyle this) = neutralColor
  /\ color (getStyle this) <> greenColor.
Proof.
  assert (Hc : color (getStyle (atomWith (Vector2.new (Fin 0) (Fin 0)) (Fin 1)
                                  (electronegativityOnly (Fin 0)))) = neutralColor).
  { apply getStyle_color_falsy. apply truthy_number_false. right. left. reflexivity. }
  repeat apply conj.
  - reflexivity.
  - apply lessThanOrEqual_Fin. lra.
  - exact Hc.
  - cbv zeta. rewrite Hc. discriminate.
Qed.

(** ** The constructor *)

(** [v || d] is not zero when [d] is truthy. *)
Lemma orElse_not_zero (v : option number) (d : number) :
  toBoolean d = true -> orElse v d <> Fin 0.
Proof.
  intros Hd. unfold orElse.
  destruct v as [n |].
  - destruct (toBoolean n) eqn:Hn; intros E; subst;
      [rewrite toBoolean_zero in Hn | rewrite toBoolean_zero in Hd]; discriminate.
  - intros E; subst. rewrite toBoolean_zero in Hd. discriminate.
Qed.

(** C10: the constructor replaces a zero by the default.  With [size = 0]
    in the configuration the size of the atom is 25 plus the contribution of
    the mass of the configured properties, exactly as when the size is
    absent; with [friction = 0] the friction of the atom is 1.  So no
    configuration yields an atom whose friction, or whose size before the
    contribution of the mass, is 0. *)
Theorem constructor_coalesces_zero {Isotope : Type}
    (generatedID : string) (config : option (AtomConfig.t Isotope)) :
  let atom := constructor generatedID config in
  let configured :=
    orElse (optChain config AtomConfig.properties) (emptyProperties Isotope) in
  let baseSize := orElse (optChain config AtomConfig.size) (Fin 25) in
  let massContribution :=
    Number.divide
      (Number.exponentiate (orElse (atomicMass configured) (Fin 1)) (Fin 1.2))
      (Fin 10) in
  properties atom = configured
  /\ (optChain config AtomConfig.size = Some (Fin 0) ->
      size atom = Number.add (Fin 25) massContribution)
  /\ (optChain config AtomConfig.size = None ->
      size atom = Number.add (Fin 25) massContribution)
  /\ (optChain config AtomConfig.friction = Some (Fin 0) -> friction atom = Fin 1)
  /\ (optChain config AtomConfig.friction = None -> friction atom = Fin 1)
  /\ friction atom <> Fin 0
  /\ size atom = Number.add baseSize massContribution
  /\ baseSize <> Fin 0.
Proof.
  intros atom configured baseSize massContribution.
  assert (H1 : toBoolean (Fin 1) = true) by (apply toBoolean_Fin; lra).
  assert (H25 : toBoolean (Fin 25) = true) by (apply toBoolean_Fin; lra).
  unfold atom, massContribution, baseSize, configured, constructor.
  cbn [size friction properties set_size].
  repeat apply conj.
  - reflexivity.
  - intros ->. cbn [orElse]. now rewrite toBoolean_zero.
  - intros ->. reflexivity.
  - intros ->. cbn [orElse]. now rewrite toBoolean_zero.
  - intros ->. reflexivity.
  - apply orElse_not_zero. exact H1.
  - reflexivity.
  - apply orElse_not_zero. exact H25.
Qed.

(** The configuration [{ size: 0, friction: 0, properties: { atomicMass: 32 } }]:
    the size is 25 plus the contribution of the mass 32. *)
Lemma constructor_coalesces_zero_witness :
  size (constructor "id" (Some zeroMassConfig))
  = Number.add (Fin 25)
      (Number.divide (Number.exponentiate (Fin 32) (Fin 1.2)) (Fin 10))
  /\ friction (constructor "id" (Some zeroMassConfig)) = Fin 1
  /\ atomicMass (properties (constructor "id" (Some zeroMassConfig))) = Some (Fin 32).
Proof.
  pose proof (constructor_coalesces_zero "id" (Some zeroMassConfig)) as T.
  cbv zeta in T. destruct T as (Tp & Ts & _ & Tf & _).
  assert (H32 : toBoolean (Fin 32) = true) by (apply toBoolean_Fin; lra).
  split; [| split].
  - rewrite (Ts eq_refl).
    cbn [optChain zeroMassConfig AtomConfig.properties orElse toBoolean
         AtomProperties_ToBoolean massOnly atomicMass].
    now rewrite H32.
  - exact (Tf eq_refl).
  - now rewrite Tp.
Defined.

(** ** Further properties of the bond queries *)

(** X1: [isBondedWith] is symmetric: an atom is bonded with another in a
    list exactly when the other is bonded with it. *)
Theorem isBondedWith_symmetric (bonds : list Bond) (a b : ref) :
  isBondedWith a bonds b = isBondedWith b bonds a.
Proof.
  unfold isBondedWith. induction bonds as [| bond rest IH]; [reflexivity |].
  cbn [existsb]. rewrite IH. f_equal. apply orb_comm.
Qed.

(** X2: no atom is bonded in the empty list, and in the concatenation of two
    lists an atom is bonded with another exactly when it is in one of the
    two: adding bonds never unbonds, and the order of the list is
    irrelevant. *)
Theorem isBondedWith_nil_app (bonds1 bonds2 : list Bond) (a b : ref) :
  isBondedWith a [] b = false
  /\ isBondedWith a (bonds1 ++ bonds2) b
     = isBondedWith a bonds1 b || isBondedWith a bonds2 b
  /\ isBondedWith a (bonds2 ++ bonds1) b = isBondedWith a (bonds1 ++ bonds2) b.
Proof.
  unfold isBondedWith. rewrite !existsb_app. repeat split. apply orb_comm.
Qed.

Lemma isConnected_swap (bonds : list Bond) (a b c : ref) :
  isBondedWith c bonds b && isBondedWith b bonds a && isBondedWith a bonds c
  = isBondedWith a bonds b && isBondedWith b bonds c && isBondedWith c bonds a.
Proof.
  rewrite (isBondedWith_symmetric bonds c b), (isBondedWith_symmetric bonds b a),
    (isBondedWith_symmetric bonds a c).
  destruct (isBondedWith a bonds b), (isBondedWith b bonds c),
    (isBondedWith c bonds a); reflexivity.
Qed.

Lemma isConnected_rotate (bonds : list Bond) (a b c : ref) :
  isBondedWith b bonds c && isBondedWith c bonds a && isBondedWith a bonds b
  = isBondedWith a bonds b && isBondedWith b bonds c && isBondedWith c bonds a.
Proof.
  destruct (isBondedWith a bonds b), (isBondedWith b bonds c),
    (isBondedWith c bonds a); reflexivity.
Qed.

(** X3: whether [calculateAngle] returns [null] does not depend on the order
    in which the three atoms are passed: it is the same after exchanging the
    two neighbours and after rotating the three arguments. *)
Theorem calculateAngle_null_order_independent {Isotope : Type}
    (heap : ref -> Atom Isotope) (bonds : list Bond) (a b c : ref) :
  (calculateAngle heap bonds c b a = None <-> calculateAngle heap bonds a b c = None)
  /\ (calculateAngle heap bonds b c a = None <-> calculateAngle heap bonds a b c = None).
Proof.
  rewrite !calculateAngle_null, (isConnected_swap bonds a b c),
    (isConnected_rotate bonds a b c). tauto.
Qed.

(** ** Further properties of the angle *)

Lemma angleDegreesR_reverse (ax ay bx by' cx cy : R) :
  (angleDegreesR ax ay bx by' cx cy = 0 /\ angleDegreesR cx cy bx by' ax ay = 0)
  \/ angleDegreesR ax ay bx by' cx cy + angleDegreesR cx cy bx by' ax ay = 360.
Proof.
  unfold angleDegreesR. pose proof PI_RGT_0 as Hpi.
  set (t1 := Math.atan2R (ay - by') (ax - bx)).
  set (t2 := Math.atan2R (cy - by') (cx - bx)).
  destruct (Rlt_dec (t2 - t1) 0) as [H1 | H1], (Rlt_dec (t1 - t2) 0) as [H2 | H2].
  - lra.
  - right. field. lra.
  - right. field. lra.
  - left. assert (E : t2 = t1) by lra. rewrite E.
    replace (t1 - t1) with 0 by ring. split; ring.
Qed.



(** The angle of a triple that is not connected, and of one that is. *)
Lemma calculateAngle_cases {Isotope : Type}
    (heap : ref -> Atom Isotope) (bonds : list Bond) (a b c : ref)
    (ax ay bx by' cx cy : R) :
  pos (heap a) = Vector2.new (Fin ax) (Fin ay) ->
  pos (heap b) = Vector2.new (Fin bx) (Fin by') ->
  pos (heap c) = Vector2.new (Fin cx) (Fin cy) ->
  calculateAngle heap bonds a b c
  = if isBondedWith a bonds b && isBondedWith b bonds c && isBondedWith c bonds a
    then Some (Fin (angleDegreesR ax ay bx by' cx cy))
    else None.
Proof.
  intros Ha Hb Hc.
  destruct (isBondedWith a bonds b && isBondedWith b bonds c && isBondedWith c bonds a)
    eqn:Hconn.
  - now apply calculateAngle_connected.
  - now apply calculateAngle_null.
Qed.

(** X4: on a bonded triangle with finite positions, exchanging the two
    neighbours turns the angle into its complement to a full turn: the two
    results add up to 360 degrees, unless both are 0. *)
Theorem calculateAngle_reversed {Isotope : Type}
    (heap : ref -> Atom Isotope) (bonds : list Bond) (a b c : ref) :
  finiteVector (pos (heap a)) = true ->
  finiteVector (pos (heap b)) = true ->
  finiteVector (pos (heap c)) = true ->
  bonded bonds a b -> bonded bonds b c -> bonded bonds c a ->
  exists d1 d2 : R,
    calculateAngle heap bonds a b c = Some (Fin d1)
    /\ calculateAngle heap bonds c b a = Some (Fin d2)
    /\ ((d1 = 0 /\ d2 = 0) \/ d1 + d2 = 360).
Proof.
  intros Ha Hb Hc Hab Hbc Hca.
  apply finiteVector_inv in Ha, Hb, Hc.
  destruct Ha as (ax & ay & Ha), Hb as (bx & by' & Hb), Hc as (cx & cy & Hc).
  exists (angleDegreesR ax ay bx by' cx cy), (angleDegreesR cx cy bx by' ax ay).
  apply isBondedWith_bonded in Hab, Hbc, Hca.
  rewrite (calculateAngle_cases heap bonds a b c ax ay bx by' cx cy Ha Hb Hc).
  rewrite (calculateAngle_cases heap bonds c b a cx cy bx by' ax ay Hc Hb Ha).
  rewrite (isConnected_swap bonds a b c), Hab, Hbc, Hca.
  repeat split. apply angleDegreesR_reverse.
Qed.

Lemma calculateAngle_reversed_witness :
  exists d1 d2 : R,
    calculateAngle triangleHeap triangleBonds 0%nat 1%nat 2%nat = Some (Fin d1)
    /\ calculateAngle triangleHeap triangleBonds 2%nat 1%nat 0%nat = Some (Fin d2)
    /\ ((d1 = 0 /\ d2 = 0) \/ d1 + d2 = 360).
Proof.
  exact (calculateAngle_reversed triangleHeap triangleBonds 0%nat 1%nat 2%nat
           eq_refl eq_refl eq_refl
           (proj1 triangle_bonded) (proj1 (proj2 triangle_bonded))
           (proj2 (proj2 triangle_bonded))).
Defined.



(** X6: the same atom as both neighbours.  [calculateAngle(bonds, a, b, a)]
    is [null] unless the list holds a bond from [a] to itself; and when it
    does, and [a] and [b] are bonded and have finite positions, the angle
    is 0. *)
Theorem calculateAngle_degenerate {Isotope : Type}
    (heap : ref -> Atom Isotope) (bonds : list Bond) (a b : ref) :
  (calculateAngle heap bonds a b a <> None ->
   exists bond, In bond bonds /\ atom1 bond = a /\ atom2 bond = a)
  /\ (finiteVector (pos (heap a)) = true ->
      finiteVector (pos (heap b)) = true ->
      bonded bonds a b -> bonded bonds a a ->
      calculateAngle heap bonds a b a = Some (Fin 0)).
Proof.
  split.
  - intros H.
    destruct (isBondedWith a bonds a) eqn:Hself.
    + apply isBondedWith_bonded in Hself.
      destruct Hself as (bond & Hin & [[H1 H2] | [H1 H2]]); exists bond; auto.
    + elim H. apply calculateAngle_null. rewrite Hself. apply andb_false_r.
  - intros Ha Hb Hab Haa.
    apply finiteVector_inv in Ha, Hb.
    destruct Ha as (ax & ay & Ha), Hb as (bx & by' & Hb).
    rewrite (calculateAngle_cases heap bonds a b a ax ay bx by' ax ay Ha Hb Ha).
    pose proof (bonded_sym _ _ _ Hab) as Hba.
    apply isBondedWith_bonded in Hab, Hba, Haa. rewrite Hab, Hba, Haa.
    cbn [andb]. do 2 f_equal. unfold angleDegreesR.
    replace (Math.atan2R (ay - by') (ax - bx) - Math.atan2R (ay - by') (ax - bx))
      with 0 by ring.
    destruct (Rlt_dec 0 0); [lra | ring].
Qed.

Lemma selfBonds_bonded :
  bonded selfBonds 0%nat 1%nat /\ bonded selfBonds 0%nat 0%nat.
Proof. split; apply isBondedWith_bonded; reflexivity. Qed.

Lemma calculateAngle_degenerate_witness :
  calculateAngle triangleHeap selfBonds 0%nat 1%nat 0%nat = Some (Fin 0).
Proof.
  exact (proj2 (calculateAngle_degenerate triangleHeap selfBonds 0%nat 1%nat)
           eq_refl eq_refl (proj1 selfBonds_bonded) (proj2 selfBonds_bonded)).
Defined.

(** *** NaN in a position *)

Lemma subtract_NaN (u w : number) :
  isNaN u || isNaN w = true -> Number.subtract u w = NaN.
Proof. destruct u, w; cbn; try reflexivity; discriminate. Qed.

Lemma atan2_NaN (u w : number) :
  isNaN u || isNaN w = true -> Math.atan2 u w = NaN.
Proof. destruct u, w; cbn; try reflexivity; discriminate. Qed.

Lemma sub_hasNaN (u w : Vector2.t) :
  hasNaN u || hasNaN w = true ->
  Math.atan2 (Vector2.y (Vector2.sub u w)) (Vector2.x (Vector2.sub u w)) = NaN.
Proof.
  destruct u as [[] []], w as [[] []]; cbn; intros H; try reflexivity; discriminate.
Qed.

(** X7: on a bonded triangle, a NaN in a coordinate of one of the three
    positions makes the result NaN: [calculateAngle] then returns a number,
    not [null], and the number is NaN. *)
Theorem calculateAngle_NaN_position {Isotope : Type}
    (heap : ref -> Atom Isotope) (bonds : list Bond) (a b c : ref) :
  bonded bonds a b -> bonded bonds b c -> bonded bonds c a ->
  hasNaN (pos (heap a)) || hasNaN (pos (heap b)) || hasNaN (pos (heap c)) = true ->
  calculateAngle heap bonds a b c = Some NaN.
Proof.
  intros Hab Hbc Hca Hn.
  apply isBondedWith_bonded in Hab, Hbc, Hca.
  unfold calculateAngle. rewrite Hab, Hbc, Hca. cbn [andb negb].
  assert (Ht : Number.subtract
                 (Math.atan2 (Vector2.y (Vector2.sub (pos (heap c)) (pos (heap b))))
                    (Vector2.x (Vector2.sub (pos (heap c)) (pos (heap b)))))
                 (Math.atan2 (Vector2.y (Vector2.sub (pos (heap a)) (pos (heap b))))
                    (Vector2.x (Vector2.sub (pos (heap a)) (pos (heap b))))) = NaN).
  { apply subtract_NaN.
    destruct (hasNaN (pos (heap a))) eqn:Ea.
    - rewrite (sub_hasNaN (pos (heap a))) by now rewrite Ea. apply orb_true_r.
    - destruct (hasNaN (pos (heap b))) eqn:Eb.
      + rewrite (sub_hasNaN (pos (heap a))) by now rewrite Eb, orb_true_r.
        apply orb_true_r.
      + cbn [orb] in Hn. rewrite (sub_hasNaN (pos (heap c))) by now rewrite Hn.
        reflexivity. }
  rewrite Ht. reflexivity.
Qed.

Lemma calculateAngle_NaN_position_witness :
  calculateAngle nanHeap triangleBonds 0%nat 1%nat 2%nat = Some NaN.
Proof.
  exact (calculateAngle_NaN_position nanHeap triangleBonds 0%nat 1%nat 2%nat
           (proj1 triangle_bonded) (proj1 (proj2 triangle_bonded))
           (proj2 (proj2 triangle_bonded)) eq_refl).
Defined.

(** ** Further properties of calcPosition *)

(** X8: [calcPosition] writes the position and the velocity only: the size,
    the id, the friction, the properties and the selection flag are those of
    before the call, and so is the style. *)
Theorem calcPosition_frame {Isotope : Type} (this : Atom Isotope) (delta : number) :
  size (calcPosition this delta) = size this
  /\ id (calcPosition this delta) = id this
  /\ friction (calcPosition this delta) = friction this
  /\ properties (calcPosition this delta) = properties this
  /\ selected (calcPosition this delta) = selected this
  /\ getStyle (calcPosition this delta) = getStyle this.
Proof.
  unfold calcPosition.
  destruct (Number.lessThan (Vector2.length (vel this)) (Fin 0.00001));
    repeat split.
Qed.

Lemma length_zero : Vector2.length (Vector2.new (Fin 0) (Fin 0)) = Fin 0.
Proof.
  rewrite length_Fin. replace (0 * 0 + 0 * 0) with 0 by ring. now rewrite sqrt_0.
Qed.

Lemma zero_is_slow :
  Number.lessThan (Vector2.length (Vector2.new (Fin 0) (Fin 0))) (Fin 0.00001) = true.
Proof. rewrite length_zero. apply lessThan_Fin. lra. Qed.

(** An atom whose velocity is (0, 0) is a fixed point, and a slow atom is
    one after a call. *)
Lemma rest_fixed_point {Isotope : Type}
    (this : Atom Isotope) (delta : number) :
  (Number.lessThan (Vector2.length (vel this)) (Fin 0.00001) = true ->
   forall delta' : number,
     calcPosition (calcPosition this delta) delta' = calcPosition this delta)
  /\ (vel this = Vector2.new (Fin 0) (Fin 0) -> calcPosition this delta = this).
Proof.
  split.
  - intros Hv delta'. rewrite (calcPosition_resting this delta Hv).
    rewrite calcPosition_resting by (cbn [vel set_vel]; apply zero_is_slow).
    reflexivity.
  - intros Hv. rewrite calcPosition_resting by (rewrite Hv; apply zero_is_slow).
    destruct this. cbn in *. now subst.
Qed.

(** X9: rest is terminal.  A call on an atom whose speed is below 1e-5
    leaves an atom on which every further call changes nothing; and an atom
    whose velocity is (0, 0) is not changed at all by a call. *)
Theorem calcPosition_rest_is_terminal {Isotope : Type}
    (this : Atom Isotope) (delta delta' : number) :
  (Number.lessThan (Vector2.length (vel this)) (Fin 0.00001) = true ->
   calcPosition (calcPosition this delta) delta' = calcPosition this delta)
  /\ (vel this = Vector2.new (Fin 0) (Fin 0) -> calcPosition this delta = this).
Proof.
  destruct (rest_fixed_point this delta) as [H1 H2].
  split; [intros Hv; now apply H1 | exact H2].
Qed.

Lemma calcPosition_rest_is_terminal_witness :
  calcPosition (atomAt (Vector2.new (Fin 1) (Fin 1))) (Fin 0.016)
  = atomAt (Vector2.new (Fin 1) (Fin 1)).
Proof.
  exact (proj2 (calcPosition_rest_is_terminal (atomAt (Vector2.new (Fin 1) (Fin 1)))
                  (Fin 0.016) (Fin 0.016)) eq_refl).
Defined.

Section FiniteMotion.

Context {Isotope : Type}.
Variable this : Atom Isotope.
Variables px py vx vy f d m : R.

Hypothesis pos_finite : pos this = Vector2.new (Fin px) (Fin py).
Hypothesis vel_finite : vel this = Vector2.new (Fin vx) (Fin vy).
Hypothesis friction_finite : friction this = Fin f.
Hypothesis mass_finite : orElse (atomicMass (properties this)) (Fin 2) = Fin m.
Hypothesis mass_pos : 0 < m.
Hypothesis mass_not_1 : m <> 1.
Hypothesis moving : Number.lessThanOrEqual (Fin 0.00001) (Vector2.length (vel this)) = true.

Local Abbreviation k := (20 / ln m).
Local Abbreviation c := (f * d * (20 / ln m)).

(** The position after a step of a moving atom. *)
Lemma moving_position :
  pos (calcPosition this (Fin d))
  = Vector2.new (Fin (px + vx * (1 - c) * (d * k))) (Fin (py + vy * (1 - c) * (d * k))).
Proof.
  pose proof (lessThanOrEqual_not_lessThan _ _ moving) as Hv.
  rewrite (calcPosition_moving this (Fin d) Hv).
  cbn [pos set_pos]. unfold specPosition, specVelocity, specDamping.
  rewrite mass_finite, vel_finite, friction_finite, pos_finite.
  rewrite (log_Fin m mass_pos).
  rewrite divide_Fin by (apply ln_neq_0; assumption).
  unfold Vector2.sum, Vector2.multi.
  cbn [Vector2.x Vector2.y Number.multiply Number.add Number.unaryMinus].
  f_equal; f_equal; ring.
Qed.

End FiniteMotion.



(** X11: outside the stability range the step speeds the atom up.  For a
    moving atom with finite velocity (components of magnitude at most 1e100)
    and friction and a positive mass other than 1, when
    [f * delta * (20 / ln m)] is at most [-1e-6] or at least [2 + 1e-6], the
    speed after [calcPosition(delta)] is not at most the speed before. *)
Theorem calcPosition_unstable_outside_range {Isotope : Type}
    (this : Atom Isotope) (vx vy f d m : R) :
  vel this = Vector2.new (Fin vx) (Fin vy) ->
  friction this = Fin f ->
  orElse (atomicMass (properties this)) (Fin 2) = Fin m ->
  0 < m -> m <> 1 ->
  - 1e100 <= vx <= 1e100 ->
  - 1e100 <= vy <= 1e100 ->
  Number.lessThanOrEqual (Fin 0.00001) (Vector2.length (vel this)) = true ->
  f * d * (20 / ln m) <= - 0.000001 \/ 2 + 0.000001 <= f * d * (20 / ln m) ->
  Number.lessThanOrEqual (Vector2.length (vel (calcPosition this (Fin d))))
    (Vector2.length (vel this)) = false.
Proof.
  intros Hv Hf Hm Hpos H1 _ _ Hmov Hc.
  apply (step_overshoots this vx vy f d m Hv Hf Hm Hpos H1 Hmov).
  destruct Hc; [left | right]; lra.
Qed.

(** Mass 2 (the default), friction 1, velocity (10, 0) and a whole unit of
    time: [20 / ln 2] is above 20. *)
Lemma calcPosition_unstable_outside_range_witness :
  Number.lessThanOrEqual
    (Vector2.length
       (vel (calcPosition
               (atomWith (Vector2.new (Fin 10) (Fin 0)) (Fin 1) (massOnly None))
               (Fin 1))))
    (Vector2.length (Vector2.new (Fin 10) (Fin 0))) = false.
Proof.
  assert (Hpos : 0 < 2) by lra.
  assert (H1 : 2 <> 1) by lra.
  assert (Hx : - 1e100 <= 10 <= 1e100) by lra.
  assert (Hy : - 1e100 <= 0 <= 1e100) by lra.
  assert (Hmov : Number.lessThanOrEqual (Fin 0.00001)
                   (Vector2.length (Vector2.new (Fin 10) (Fin 0))) = true).
  { rewrite length_Fin. apply lessThanOrEqual_Fin.
    replace (10 * 10 + 0 * 0) with (10 * 10) by ring. rewrite sqrt_square; lra. }
  assert (Hc : 1 * 1 * (20 / ln 2) <= - 0.000001 \/ 2 + 0.000001 <= 1 * 1 * (20 / ln 2)).
  { right. pose proof ln_2_pos as H0. pose proof ln_2_lt_1 as Hlt.
    assert (Hi : / 1 < / ln 2).
    { apply Rinv_lt_contravar; [| exact Hlt]. apply Rmult_lt_0_compat; lra. }
    rewrite Rinv_1 in Hi. unfold Rdiv. lra. }
  exact (calcPosition_unstable_outside_range
           (atomWith (Vector2.new (Fin 10) (Fin 0)) (Fin 1) (massOnly None))
           10 0 1 1 2 eq_refl eq_refl eq_refl Hpos H1 Hx Hy Hmov Hc).
Defined.

(** After one step on finite data the velocity is finite and, within the
    range, not longer. *)
Lemma step_finite_damps {Isotope : Type} (this : Atom Isotope) (vx vy f d m : R) :
  vel this = Vector2.new (Fin vx) (Fin vy) ->
  friction this = Fin f ->
  orElse (atomicMass (properties this)) (Fin 2) = Fin m ->
  0 < m -> m <> 1 ->
  0 <= f * d * (20 / ln m) <= 2 ->
  exists vx' vy' : R,
    vel (calcPosition this (Fin d)) = Vector2.new (Fin vx') (Fin vy')
    /\ sqrt (vx' * vx' + vy' * vy') <= sqrt (vx * vx + vy * vy).
Proof.
  intros Hv Hf Hm Hpos H1 Hc.
  pose proof (step_damps this vx vy f d m Hv Hf Hm Hpos H1 Hc) as Hle.
  destruct (Number.lessThan (Vector2.length (vel this)) (Fin 0.00001)) eqn:Hs.
  - exists 0, 0. rewrite (calcPosition_resting this (Fin d) Hs) in *.
    cbn [vel set_vel] in *. split; [reflexivity |].
    rewrite Hv, !length_Fin in Hle. now apply lessThanOrEqual_Fin in Hle.
  - rewrite (moving_velocity this vx vy f d m Hv Hf Hm Hpos H1 Hs) in *.
    eexists _, _. split; [reflexivity |].
    rewrite Hv, !length_Fin in Hle. now apply lessThanOrEqual_Fin in Hle.
Qed.

Lemma frames_damp {Isotope : Type} (f m : R) (deltas : list R) :
  0 < m -> m <> 1 ->
  Forall (fun d => 0 <= f * d * (20 / ln m) <= 2) deltas ->
  forall (this : Atom Isotope) (vx vy : R),
    vel this = Vector2.new (Fin vx) (Fin vy) ->
    friction this = Fin f ->
    orElse (atomicMass (properties this)) (Fin 2) = Fin m ->
    exists vx' vy' : R,
      vel (calcPositionFrames this (map Fin deltas)) = Vector2.new (Fin vx') (Fin vy')
      /\ sqrt (vx' * vx' + vy' * vy') <= sqrt (vx * vx + vy * vy).
Proof.
  intros Hpos H1 Hall. induction Hall as [| d rest Hd Hrest IH]; intros this vx vy Hv Hf Hm.
  - exists vx, vy. split; [exact Hv | lra].
  - destruct (step_finite_damps this vx vy f d m Hv Hf Hm Hpos H1 Hd)
      as (vx1 & vy1 & Hv1 & Hle1).
    destruct (calcPosition_frame this (Fin d)) as (_ & _ & Hf' & Hp' & _).
    destruct (IH (calcPosition this (Fin d)) vx1 vy1 Hv1) as (vx2 & vy2 & Hv2 & Hle2).
    + now rewrite Hf'.
    + now rewrite Hp'.
    + exists vx2, vy2. split; [exact Hv2 | lra].
Qed.

(** X12: over any number of frames whose deltas all satisfy
    [0 <= f * delta * (20 / ln m) <= 2 - 1e-6], the speed at the end is at
    most the speed at the start (finite velocity, friction and deltas of
    magnitude at most 1e100, friction [f > 0], positive mass other than
    1). *)
Theorem calcPositionFrames_damps {Isotope : Type}
    (this : Atom Isotope) (vx vy f m : R) (deltas : list R) :
  vel this = Vector2.new (Fin vx) (Fin vy) ->
  friction this = Fin f ->
  orElse (atomicMass (properties this)) (Fin 2) = Fin m ->
  0 < m -> m <> 1 ->
  - 1e100 <= vx <= 1e100 ->
  - 1e100 <= vy <= 1e100 ->
  0 < f <= 1e100 ->
  Forall (fun d => - 1e100 <= d <= 1e100
                   /\ 0 <= f * d * (20 / ln m) <= 2 - 0.000001) deltas ->
  Number.lessThanOrEqual
    (Vector2.length (vel (calcPositionFrames this (map Fin deltas))))
    (Vector2.length (vel this)) = true.
Proof.
  intros Hv Hf Hm Hpos H1 _ _ _ Hall.
  assert (Hall' : Forall (fun d => 0 <= f * d * (20 / ln m) <= 2) deltas).
  { eapply Forall_impl; [| exact Hall]. cbv beta. intros d [_ Hc]. lra. }
  destruct (frames_damp f m deltas Hpos H1 Hall' this vx vy Hv Hf Hm)
    as (vx' & vy' & Hv' & Hle).
  rewrite Hv', Hv, !length_Fin. now apply lessThanOrEqual_Fin.
Qed.

(** Three frames of 0.016 on mass 4, friction 1, velocity (10, 0). *)
Lemma calcPositionFrames_damps_witness :
  Number.lessThanOrEqual
    (Vector2.length
       (vel (calcPositionFrames
               (atomWith (Vector2.new (Fin 10) (Fin 0)) (Fin 1) (massOnly (Some (Fin 4))))
               (map Fin [0.016; 0.016; 0.016]))))
    (Vector2.length (Vector2.new (Fin 10) (Fin 0))) = true.
Proof.
  assert (Hm : orElse (Some (Fin 4)) (Fin 2) = Fin 4).
  { cbn [orElse]. now rewrite toBoolean_Fin by lra. }
  assert (Hpos : 0 < 4) by lra.
  assert (H1 : 4 <> 1) by lra.
  assert (Hx : - 1e100 <= 10 <= 1e100) by lra.
  assert (Hy : - 1e100 <= 0 <= 1e100) by lra.
  assert (Hf : 0 < 1 <= 1e100) by lra.
  assert (Hc : - 1e100 <= 0.016 <= 1e100
               /\ 0 <= 1 * 0.016 * (20 / ln 4) <= 2 - 0.000001).
  { split; [lra |]. pose proof ln_4_lower as HL.
    assert (H0 : 0 < ln 4) by lra.
    pose proof (Rinv_0_lt_compat _ H0) as Hi.
    assert (Hi2 : / ln 4 < 2).
    { rewrite <- (Rinv_inv 2). apply Rinv_lt_contravar; [| lra].
      apply Rmult_lt_0_compat; lra. }
    unfold Rdiv. lra. }
  apply (calcPositionFrames_damps
           (atomWith (Vector2.new (Fin 10) (Fin 0)) (Fin 1) (massOnly (Some (Fin 4))))
           10 0 1 4 [0.016; 0.016; 0.016] eq_refl eq_refl Hm Hpos H1 Hx Hy Hf).
  apply Forall_cons; [exact Hc |].
  apply Forall_cons; [exact Hc |].
  apply Forall_cons; [exact Hc | apply Forall_nil].
Defined.

Lemma Atom_ext {Isotope : Type} (u w : Atom Isotope) :
  pos u = pos w -> vel u = vel w -> selected u = selected w -> size u = size w ->
  id u = id w -> friction u = friction w -> properties u = properties w ->
  u = w.
Proof. destruct u, w; cbn; intros; subst; reflexivity. Qed.

(** X13: a zero time step changes nothing on a moving atom with finite
    position, velocity and friction and a positive mass other than 1. *)
Theorem calcPosition_zero_delta {Isotope : Type}
    (this : Atom Isotope) (px py vx vy f m : R) :
  pos this = Vector2.new (Fin px) (Fin py) ->
  vel this = Vector2.new (Fin vx) (Fin vy) ->
  friction this = Fin f ->
  orElse (atomicMass (properties this)) (Fin 2) = Fin m ->
  0 < m -> m <> 1 ->
  Number.lessThanOrEqual (Fin 0.00001) (Vector2.length (vel this)) = true ->
  calcPosition this (Fin 0) = this.
Proof.
  intros Hp Hv Hf Hm Hpos H1 Hmov.
  destruct (calcPosition_frame this (Fin 0)) as (Es & Ei & Ef & Epr & Ese & _).
  apply Atom_ext; try assumption.
  - rewrite (moving_position this px py vx vy f 0 m Hp Hv Hf Hm Hpos H1 Hmov), Hp.
    f_equal; f_equal; ring.
  - rewrite (moving_velocity this vx vy f 0 m Hv Hf Hm Hpos H1
               (lessThanOrEqual_not_lessThan _ _ Hmov)), Hv.
    f_equal; f_equal; ring.
Qed.

Lemma calcPosition_zero_delta_witness :
  calcPosition
    (atomWith (Vector2.new (Fin 10) (Fin 0)) (Fin 1) (massOnly (Some (Fin 4)))) (Fin 0)
  = atomWith (Vector2.new (Fin 10) (Fin 0)) (Fin 1) (massOnly (Some (Fin 4))).
Proof.
  assert (Hm : orElse (Some (Fin 4)) (Fin 2) = Fin 4).
  { cbn [orElse]. now rewrite toBoolean_Fin by lra. }
  assert (Hpos : 0 < 4) by lra.
  assert (H1 : 4 <> 1) by lra.
  assert (Hmov : Number.lessThanOrEqual (Fin 0.00001)
                   (Vector2.length (Vector2.new (Fin 10) (Fin 0))) = true).
  { rewrite length_Fin. apply lessThanOrEqual_Fin.
    replace (10 * 10 + 0 * 0) with (10 * 10) by ring. rewrite sqrt_square; lra. }
  exact (calcPosition_zero_delta
           (atomWith (Vector2.new (Fin 10) (Fin 0)) (Fin 1) (massOnly (Some (Fin 4))))
           0 0 10 0 1 4 eq_refl eq_refl eq_refl Hm Hpos H1 Hmov).
Defined.

Lemma multiply_NaN_r (a : number) : Number.multiply a NaN = NaN.
Proof. destruct a; reflexivity. Qed.

Lemma add_NaN_r (a : number) : Number.add a NaN = NaN.
Proof. destruct a; reflexivity. Qed.

(** X14: a negative atomic mass poisons a moving atom: [Math.log] of the
    mass is NaN, and after [calcPosition] the two components of the velocity
    and of the position are NaN, whatever [delta] and the friction are. *)
Theorem calcPosition_negative_mass {Isotope : Type}
    (this : Atom Isotope) (delta : number) (m : R) :
  atomicMass (properties this) = Some (Fin m) ->
  m < 0 ->
  Number.lessThanOrEqual (Fin 0.00001) (Vector2.length (vel this)) = true ->
  vel (calcPosition this delta) = Vector2.new NaN NaN
  /\ pos (calcPosition this delta) = Vector2.new NaN NaN.
Proof.
  intros Hm Hneg Hv.
  apply lessThanOrEqual_not_lessThan in Hv.
  rewrite (calcPosition_moving this delta Hv), Hm.
  cbn [orElse]. rewrite toBoolean_Fin by lra.
  assert (Hk : specDamping (Fin m) = NaN).
  { unfold specDamping. cbn. destruct (Rlt_dec m 0); [reflexivity | lra]. }
  rewrite Hk. cbn [pos vel set_pos set_vel].
  unfold specPosition, specVelocity, Vector2.sum, Vector2.multi.
  cbn [Vector2.x Vector2.y].
  now rewrite !multiply_NaN_r, !add_NaN_r.
Qed.

Lemma calcPosition_negative_mass_witness :
  vel (calcPosition
         (atomWith (Vector2.new (Fin 10) (Fin 0)) (Fin 1) (massOnly (Some (Fin (- 4)))))
         (Fin 0.016)) = Vector2.new NaN NaN.
Proof.
  assert (Hneg : - 4 < 0) by lra.
  assert (Hmov : Number.lessThanOrEqual (Fin 0.00001)
                   (Vector2.length (Vector2.new (Fin 10) (Fin 0))) = true).
  { rewrite length_Fin. apply lessThanOrEqual_Fin.
    replace (10 * 10 + 0 * 0) with (10 * 10) by ring. rewrite sqrt_square; lra. }
  exact (proj1 (calcPosition_negative_mass
                  (atomWith (Vector2.new (Fin 10) (Fin 0)) (Fin 1)
                     (massOnly (Some (Fin (- 4)))))
                  (Fin 0.016) (- 4) eq_refl Hneg Hmov)).
Defined.

(** ** Further properties of getAnimatedSize *)

Lemma animatedR_lower (s l : R) : 0 < s -> 0 <= l -> s <= animatedR s l.
Proof.
  intros Hs Hl. unfold animatedR.
  assert (Hm : 0 <= Rmin l (s * 2)) by (apply Rmin_glb; lra).
  assert (Hi : 0 < / (s * 10)) by (apply Rinv_0_lt_compat; lra).
  assert (Hq : 0 <= Rmin l (s * 2) / (s * 10)).
  { unfold Rdiv. apply Rmult_le_pos; lra. }
  assert (Hp : 0 <= s * (Rmin l (s * 2) / (s * 10))) by (apply Rmult_le_pos; lra).
  lra.
Qed.

Lemma animatedR_upper (s l : R) : 0 < s -> animatedR s l <= s * 1.2.
Proof.
  intros Hs. destruct (Rle_lt_dec l (s * 2)) as [Hl | Hl].
  - rewrite <- (animatedR_cap s (s * 2)) by lra. apply animatedR_monotone; assumption.
  - rewrite animatedR_cap; lra.
Qed.

Lemma animatedR_rest (s : R) : 0 < s -> animatedR s 0 = s.
Proof.
  intros Hs. unfold animatedR. rewrite Rmin_left by lra.
  unfold Rdiv. ring.
Qed.

(** X15: for an atom of size [s > 0] whose speed is not NaN, the animated
    size is at least [s] and at most [1.25 * s]; it is exactly [s] when the
    velocity is (0, 0); and it saturates: two atoms of the same size whose
    speeds are both at least [2 * s] have the same animated size. *)
Theorem getAnimatedSize_between {Isotope : Type} (this : Atom Isotope) (s : R) :
  size this = Fin s ->
  0 < s ->
  isNaN (Vector2.length (vel this)) = false ->
  Number.lessThanOrEqual (Fin s) (getAnimatedSize this) = true
  /\ Number.lessThanOrEqual (getAnimatedSize this) (Fin (s * 1.25)) = true
  /\ (vel this = Vector2.new (Fin 0) (Fin 0) -> getAnimatedSize this = Fin s)
  /\ (forall other : Atom Isotope,
         size other = Fin s ->
         Number.lessThanOrEqual (Fin (s * 2)) (Vector2.length (vel this)) = true ->
         Number.lessThanOrEqual (Fin (s * 2)) (Vector2.length (vel other)) = true ->
         getAnimatedSize other = getAnimatedSize this).
Proof.
  intros Hs Hpos Hn.
  assert (Hcap : forall u : Atom Isotope,
             size u = Fin s ->
             Number.lessThanOrEqual (Fin (s * 2)) (Vector2.length (vel u)) = true ->
             getAnimatedSize u = Fin (s * 1.2)).
  { intros u Hu Hfast.
    destruct (length_shape (vel u)) as [(l & Hl0 & Hl) | [Hl | Hl]].
    - rewrite (getAnimatedSize_Fin u s Hu Hpos l Hl). f_equal.
      rewrite Hl in Hfast. apply lessThanOrEqual_Fin in Hfast.
      now apply animatedR_cap.
    - exact (getAnimatedSize_PosInfinity u s Hu Hpos Hl).
    - rewrite Hl in Hfast. discriminate. }
  split; [| split; [| split]].
  - destruct (length_shape (vel this)) as [(l & Hl0 & Hl) | [Hl | Hl]].
    + rewrite (getAnimatedSize_Fin this s Hs Hpos l Hl). apply lessThanOrEqual_Fin.
      now apply animatedR_lower.
    + rewrite (getAnimatedSize_PosInfinity this s Hs Hpos Hl).
      apply lessThanOrEqual_Fin. lra.
    + rewrite Hl in Hn. discriminate.
  - destruct (length_shape (vel this)) as [(l & Hl0 & Hl) | [Hl | Hl]].
    + rewrite (getAnimatedSize_Fin this s Hs Hpos l Hl). apply lessThanOrEqual_Fin.
      pose proof (animatedR_upper s l Hpos). lra.
    + rewrite (getAnimatedSize_PosInfinity this s Hs Hpos Hl).
      apply lessThanOrEqual_Fin. lra.
    + rewrite Hl in Hn. discriminate.
  - intros Hz.
    rewrite (getAnimatedSize_Fin this s Hs Hpos 0) by (rewrite Hz; apply length_zero).
    f_equal. now apply animatedR_rest.
  - intros other Ho Hfast Hfast'.
    now rewrite (Hcap this Hs Hfast), (Hcap other Ho Hfast').
Qed.

Lemma getAnimatedSize_between_witness :
  Number.lessThanOrEqual (Fin 25)
    (getAnimatedSize (atomWith (Vector2.new (Fin 3) (Fin 4)) (Fin 1) (massOnly None)))
  = true
  /\ Number.lessThanOrEqual
       (getAnimatedSize (atomWith (Vector2.new (Fin 3) (Fin 4)) (Fin 1) (massOnly None)))
       (Fin (25 * 1.25)) = true.
Proof.
  assert (Hpos : 0 < 25) by lra.
  assert (Hn : isNaN (Vector2.length (Vector2.new (Fin 3) (Fin 4))) = false).
  { rewrite length_Fin. reflexivity. }
  destruct (getAnimatedSize_between
              (atomWith (Vector2.new (Fin 3) (Fin 4)) (Fin 1) (massOnly None)) 25
              eq_refl Hpos Hn) as (Hlo & Hhi & _).
  split; assumption.
Defined.

(** X16: an atom of size 0 has no animated size: the formula divides by
    [size * 10 = 0] and [getAnimatedSize()] is NaN, whatever the velocity
    is. *)
Theorem getAnimatedSize_size_zero {Isotope : Type} (this : Atom Isotope) :
  size this = Fin 0 -> getAnimatedSize this = NaN.
Proof.
  intros Hs. unfold getAnimatedSize. rewrite Hs.
  cbn [Number.multiply].
  replace (0 * 2) with 0 by ring. replace (0 * 10) with 0 by ring.
  destruct (length_shape (vel this)) as [(l & Hl0 & Hl) | [Hl | Hl]]; rewrite Hl.
  - rewrite min_Fin, Rmin_right by exact Hl0.
    cbn. destruct (Req_dec_T 0 0); [| lra].
    unfold Number.scaleInfinity.
    destruct (Rlt_dec 0 0); [lra | reflexivity].
  - cbn. destruct (Req_dec_T 0 0); [| lra].
    unfold Number.scaleInfinity.
    destruct (Rlt_dec 0 0); [lra | reflexivity].
  - reflexivity.
Qed.

Lemma getAnimatedSize_size_zero_witness :
  getAnimatedSize (atomOfSize (Fin 0)) = NaN.
Proof. exact (getAnimatedSize_size_zero (atomOfSize (Fin 0)) eq_refl). Defined.

(** ** Further properties of getStyle *)

Lemma max_Fin (l t : R) : Math.max (Fin l) (Fin t) = Fin (Rmax l t).
Proof.
  cbn. unfold Rmax. destruct (Rlt_dec l t), (Rle_dec l t); try reflexivity; try lra.
  f_equal. lra.
Qed.

(** The clamp of a finite number. *)
Lemma clamp_Fin (lo hi r : R) :
  Math.max (Fin lo) (Math.min (Fin hi) (Fin r)) = Fin (Rmax lo (Rmin hi r)).
Proof. now rewrite min_Fin, max_Fin. Qed.

(** X17: the font size of the symbol is 24 without a symbol (absent or
    empty) and [min(32, 24 + 2 * length)] with one: 26, 28, 30 and then 32
    from four characters on.  It is never below 24: the lower clamp 16 of the
    code is never reached. *)
Theorem getStyle_symbolFontSize {Isotope : Type} (this : Atom Isotope) :
  (truthy (symbol (properties this)) = false ->
   symbolFontSize (getStyle this) = Fin 24)
  /\ (forall s : string,
         symbol (properties this) = Some s -> s <> EmptyString ->
         symbolFontSize (getStyle this)
         = Fin (Rmin 32 (24 + INR (String.length s) * 2))
         /\ ((String.length s <= 4)%nat ->
             symbolFontSize (getStyle this) = Fin (24 + INR (String.length s) * 2))
         /\ ((4 <= String.length s)%nat -> symbolFontSize (getStyle this) = Fin 32))
  /\ Number.lessThanOrEqual (Fin 24) (symbolFontSize (getStyle this)) = true.
Proof.
  assert (Hsome : forall s : string,
             symbol (properties this) = Some s -> s <> EmptyString ->
             symbolFontSize (getStyle this)
             = Fin (Rmin 32 (24 + INR (String.length s) * 2))).
  { intros s Hs Hne. unfold getStyle. cbn [symbolFontSize]. rewrite Hs.
    assert (Ht : toBoolean s = true) by (destruct s; [contradiction | reflexivity]).
    rewrite Ht. cbn [Number.multiply Number.add]. rewrite clamp_Fin.
    f_equal. apply Rmax_right.
    pose proof (pos_INR (String.length s)).
    apply Rmin_glb; lra. }
  assert (Hnone : truthy (symbol (properties this)) = false ->
                  symbolFontSize (getStyle this) = Fin 24).
  { intros Ht. unfold getStyle. cbn [symbolFontSize]. unfold truthy in Ht.
    destruct (symbol (properties this)); [now rewrite Ht | reflexivity]. }
  split; [exact Hnone |]. split.
  - intros s Hs Hne. rewrite (Hsome s Hs Hne). repeat split.
    + intros Hlen. f_equal. apply Rmin_right.
      apply le_INR in Hlen.
      replace (INR 4) with 4 in Hlen by (cbn; ring). lra.
    + intros Hlen. f_equal. apply Rmin_left.
      apply le_INR in Hlen. replace (INR 4) with 4 in Hlen by (cbn; ring). lra.
  - destruct (truthy (symbol (properties this))) eqn:Ht.
    + assert (Hex : exists s : string,
                 symbol (properties this) = Some s /\ s <> EmptyString).
      { unfold truthy in Ht. destruct (symbol (properties this)) as [s |];
          [| discriminate].
        exists s. split; [reflexivity |]. intros ->. discriminate. }
      destruct Hex as (s & Hs & Hne). rewrite (Hsome s Hs Hne).
      apply lessThanOrEqual_Fin. pose proof (pos_INR (String.length s)).
      apply Rmin_glb; lra.
    + rewrite Hnone by reflexivity. apply lessThanOrEqual_Fin. lra.
Qed.

(** The symbol of helium: two characters, 28. *)
Lemma getStyle_symbolFontSize_witness :
  symbolFontSize
    (getStyle (atomWith (Vector2.new (Fin 0) (Fin 0)) (Fin 1) (symbolOnly "He")))
  = Fin (24 + INR 2 * 2).
Proof.
  assert (Hne : "He"%string <> EmptyString) by discriminate.
  assert (Hlen : (String.length "He" <= 4)%nat) by (cbn; lia).
  exact (proj1 (proj2 (proj1 (proj2 (getStyle_symbolFontSize
           (atomWith (Vector2.new (Fin 0) (Fin 0)) (Fin 1) (symbolOnly "He"))))
           "He"%string eq_refl Hne)) Hlen).
Defined.

(** X18: the two sizes of the style are clamped quotients.  A truthy finite
    atomic number [z] gives [max(8, min(20, z / 10))]: 8 up to [z = 80] and 20
    from [z = 200] on; a truthy finite atomic mass [m] gives
    [max(6, min(14, m / 40))]: 6 up to [m = 240] and 14 from [m = 560] on.
    So an atom with a small atomic number or mass gets a size below the
    default (10, 8) of an atom without one. *)
Theorem getStyle_sizes_piecewise {Isotope : Type} (this : Atom Isotope) :
  (forall z : R,
      atomicNumber (properties this) = Some (Fin z) -> z <> 0 ->
      atomicNumberSize (getStyle this) = Fin (Rmax 8 (Rmin 20 (z / 10)))
      /\ (z <= 80 -> atomicNumberSize (getStyle this) = Fin 8)
      /\ (200 <= z -> atomicNumberSize (getStyle this) = Fin 20))
  /\ (forall m : R,
         atomicMass (properties this) = Some (Fin m) -> m <> 0 ->
         atomicMassSize (getStyle this) = Fin (Rmax 6 (Rmin 14 (m / 40)))
         /\ (m <= 240 -> atomicMassSize (getStyle this) = Fin 6)
         /\ (560 <= m -> atomicMassSize (getStyle this) = Fin 14))
  /\ (truthy (atomicNumber (properties this)) = false ->
      atomicNumberSize (getStyle this) = Fin 10)
  /\ (truthy (atomicMass (properties this)) = false ->
      atomicMassSize (getStyle this) = Fin 8).
Proof.
  split; [| split; [| split]].
  - intros z Hz Hne.
    assert (E : atomicNumberSize (getStyle this) = Fin (Rmax 8 (Rmin 20 (z / 10)))).
    { unfold getStyle. cbn [atomicNumberSize]. rewrite Hz, (toBoolean_Fin z Hne).
      rewrite divide_Fin by lra. apply clamp_Fin. }
    rewrite E. repeat split; intros H; f_equal.
    + apply Rmax_left. apply Rle_trans with (z / 10); [apply Rmin_r | lra].
    + rewrite Rmin_left by lra. apply Rmax_right. lra.
  - intros m Hm Hne.
    assert (E : atomicMassSize (getStyle this) = Fin (Rmax 6 (Rmin 14 (m / 40)))).
    { unfold getStyle. cbn [atomicMassSize]. rewrite Hm, (toBoolean_Fin m Hne).
      rewrite divide_Fin by lra. apply clamp_Fin. }
    rewrite E. repeat split; intros H; f_equal.
    + apply Rmax_left. apply Rle_trans with (m / 40); [apply Rmin_r | lra].
    + rewrite Rmin_left by lra. apply Rmax_right. lra.
  - intros Ht. unfold getStyle. cbn [atomicNumberSize]. unfold truthy in Ht.
    destruct (atomicNumber (properties this)); [now rewrite Ht | reflexivity].
  - intros Ht. unfold getStyle. cbn [atomicMassSize]. unfold truthy in Ht.
    destruct (atomicMass (properties this)); [now rewrite Ht | reflexivity].
Qed.

(** Gold: atomic number 79, atomic mass 196.97. *)
Lemma getStyle_sizes_piecewise_witness :
  atomicNumberSize
    (getStyle (atomWith (Vector2.new (Fin 0) (Fin 0)) (Fin 1)
                 (numberAndMass (Fin 79) (Fin 196.97)))) = Fin 8
  /\ atomicMassSize
       (getStyle (atomWith (Vector2.new (Fin 0) (Fin 0)) (Fin 1)
                    (numberAndMass (Fin 79) (Fin 196.97)))) = Fin 6.
Proof.
  assert (Hz : 79 <> 0) by lra.
  assert (Hz' : 79 <= 80) by lra.
  assert (Hm : 196.97 <> 0) by lra.
  assert (Hm' : 196.97 <= 240) by lra.
  pose proof (getStyle_sizes_piecewise
                (atomWith (Vector2.new (Fin 0) (Fin 0)) (Fin 1)
                   (numberAndMass (Fin 79) (Fin 196.97)))) as (T1 & T2 & _).
  split.
  - exact (proj1 (proj2 (T1 79 eq_refl Hz)) Hz').
  - exact (proj1 (proj2 (T2 196.97 eq_refl Hm)) Hm').
Defined.

(** ** Further properties of the constructor *)

Lemma Rpower_base_1 (t : R) : Rpower 1 t = 1.
Proof. unfold Rpower. now rewrite ln_1, Rmult_0_r, exp_0. Qed.

Lemma exponent_not_zero : 1.2 <> 0.
Proof. lra. Qed.

(** On a positive base [** 1.2] is the real power. *)
Lemma exponentiate_positive (r : R) :
  0 < r -> Number.exponentiate (Fin r) (Fin 1.2) = Fin (Rpower r 1.2).
Proof.
  intros Hr. cbn. destruct (Req_dec_T 1.2 0); [lra |].
  destruct (Req_dec_T r 0); [lra |]. destruct (Rlt_dec 0 r); [reflexivity | lra].
Qed.

(** 1.2 is not an integer. *)
Lemma isInteger_exponent : Number.isInteger 1.2 = false.
Proof.
  unfold Number.isInteger.
  destruct (Req_dec_T (IZR (Int_part 1.2)) 1.2) as [E |]; [exfalso | reflexivity].
  assert (E' : IZR (5 * Int_part 1.2) = IZR 6) by (rewrite mult_IZR, E; lra).
  apply eq_IZR in E'. lia.
Qed.

(** On a negative base [** 1.2] is NaN. *)
Lemma exponentiate_negative (r : R) :
  r < 0 -> Number.exponentiate (Fin r) (Fin 1.2) = NaN.
Proof.
  intros Hr. cbn. destruct (Req_dec_T 1.2 0); [lra |].
  destruct (Req_dec_T r 0); [lra |]. destruct (Rlt_dec 0 r); [lra |].
  now rewrite isInteger_exponent.
Qed.

(** X19: [new Atom()], and [new Atom({})], is an atom at the origin, at
    rest, not selected, of friction 1, with the generated id, no property,
    and of size 25.1: the base 25 plus [1 ** 1.2 / 10]. *)
Theorem constructor_defaults {Isotope : Type} (generatedID : string) :
  let atom : Atom Isotope := constructor generatedID None in
  pos atom = Vector2.new (Fin 0) (Fin 0)
  /\ vel atom = Vector2.new (Fin 0) (Fin 0)
  /\ selected atom = false
  /\ size atom = Fin 25.1
  /\ id atom = generatedID
  /\ friction atom = Fin 1
  /\ properties atom = emptyProperties Isotope
  /\ constructor generatedID
       (Some {| AtomConfig.pos := None; AtomConfig.vel := None;
                AtomConfig.size := None; AtomConfig.id := None;
                AtomConfig.friction := None; AtomConfig.properties := None |})
     = atom.
Proof.
  cbv zeta. repeat split.
  unfold constructor. cbn [size set_size optChain orElse properties atomicMass emptyProperties].
  rewrite exponentiate_positive by lra. rewrite Rpower_base_1.
  rewrite divide_Fin by lra. cbn [Number.add]. f_equal. lra.
Qed.

(** The size of an atom built with a positive atomic mass. *)
Lemma constructor_size_positive_mass {Isotope : Type} (generatedID : string)
    (config : AtomConfig.t Isotope) (props : AtomProperties Isotope) (b m : R) :
  AtomConfig.properties config = Some props ->
  atomicMass props = Some (Fin m) ->
  0 < m ->
  orElse (AtomConfig.size config) (Fin 25) = Fin b ->
  size (constructor generatedID (Some config)) = Fin (b + Rpower m 1.2 / 10).
Proof.
  intros Hp Hm Hpos Hb. unfold constructor.
  cbn [size set_size optChain properties]. rewrite Hb, Hp.
  cbn [orElse toBoolean AtomProperties_ToBoolean]. rewrite Hm.
  cbn [orElse]. rewrite toBoolean_Fin by lra.
  rewrite exponentiate_positive by exact Hpos.
  now rewrite divide_Fin by lra.
Qed.

(** X20: the mass never shrinks an atom.  With a positive atomic mass [m]
    of at most 1e100 and a finite base size [b] of magnitude at most 1e100
    (the configured size, or 25), the constructor gives the size
    [b + m ^ 1.2 / 10], which is at least [b]. *)
Theorem constructor_size_with_mass {Isotope : Type} (generatedID : string)
    (config : AtomConfig.t Isotope) (props : AtomProperties Isotope) (b m : R) :
  AtomConfig.properties config = Some props ->
  atomicMass props = Some (Fin m) ->
  orElse (AtomConfig.size config) (Fin 25) = Fin b ->
  0 < m <= 1e100 ->
  - 1e100 <= b <= 1e100 ->
  size (constructor generatedID (Some config)) = Fin (b + Rpower m 1.2 / 10)
  /\ Number.lessThanOrEqual (Fin b) (size (constructor generatedID (Some config)))
     = true.
Proof.
  intros Hp Hm Hb [Hpos _] _.
  rewrite (constructor_size_positive_mass generatedID config props b m)
    by assumption.
  split; [reflexivity |].
  apply lessThanOrEqual_Fin. assert (0 < Rpower m 1.2) by apply exp_pos. lra.
Qed.

(** Helium at the default base size. *)
Lemma constructor_size_with_mass_witness :
  Number.lessThanOrEqual (Fin 25)
    (size (constructor "id" (Some (massConfig (Fin 4.0026))))) = true.
Proof.
  assert (Hb : orElse (@None number) (Fin 25) = Fin 25) by reflexivity.
  assert (Hm : 0 < 4.0026 <= 1e100) by lra.
  assert (Hb' : - 1e100 <= 25 <= 1e100) by lra.
  exact (proj2 (constructor_size_with_mass "id" (massConfig (Fin 4.0026))
                  (massOnly (Some (Fin 4.0026))) 25 4.0026
                  eq_refl eq_refl Hb Hm Hb')).
Defined.

(** X21: a negative finite atomic mass gives an atom without a size:
    [m ** 1.2] is NaN for a finite [m < 0], so the size of the atom is NaN
    whatever the configured size is, and so is its animated size.  The mass
    [-Infinity] is the exception: [(-Infinity) ** 1.2] is [+Infinity], and the
    size is the base size plus [+Infinity]. *)
Theorem constructor_negative_mass {Isotope : Type} (generatedID : string)
    (config : AtomConfig.t Isotope) (props : AtomProperties Isotope) :
  AtomConfig.properties config = Some props ->
  (forall m : R,
      atomicMass props = Some (Fin m) -> m < 0 ->
      size (constructor generatedID (Some config)) = NaN
      /\ getAnimatedSize (constructor generatedID (Some config)) = NaN)
  /\ (atomicMass props = Some NegInfinity ->
      size (constructor generatedID (Some config))
      = Number.add (orElse (AtomConfig.size config) (Fin 25)) PosInfinity).
Proof.
  intros Hp. split.
  - intros m Hm Hneg.
    assert (Hs : size (constructor generatedID (Some config)) = NaN).
    { unfold constructor. cbn [size set_size optChain properties]. rewrite Hp.
      cbn [orElse toBoolean AtomProperties_ToBoolean]. rewrite Hm.
      cbn [orElse]. rewrite toBoolean_Fin by lra.
      rewrite exponentiate_negative by exact Hneg.
      cbn [Number.divide]. apply add_NaN_r. }
    split; [exact Hs |]. unfold getAnimatedSize. now rewrite Hs.
  - intros Hm. unfold constructor. cbn [size set_size optChain properties].
    rewrite Hp. cbn [orElse toBoolean AtomProperties_ToBoolean]. rewrite Hm.
    cbn [orElse toBoolean number_ToBoolean Number.toBoolean].
    f_equal. cbn [Number.exponentiate].
    destruct (Req_dec_T 1.2 0); [lra |]. destruct (Rlt_dec 0 1.2); [| lra].
    unfold Number.isOddInteger. rewrite isInteger_exponent. cbn [andb Number.divide].
    destruct (Rlt_dec 10 0); [lra | reflexivity].
Qed.

Lemma constructor_negative_mass_witness :
  size (constructor "id" (Some (massConfig (Fin (- 4))))) = NaN
  /\ size (constructor "id" (Some (massConfig NegInfinity))) = PosInfinity.
Proof.
  assert (Hneg : - 4 < 0) by lra.
  split.
  - exact (proj1 (proj1 (constructor_negative_mass "id" (massConfig (Fin (- 4)))
                           (massOnly (Some (Fin (- 4)))) eq_refl)
                    (- 4) eq_refl Hneg)).
  - exact (proj2 (constructor_negative_mass "id" (massConfig NegInfinity)
                    (massOnly (Some NegInfinity)) eq_refl) eq_refl).
Defined.

(** ** The random factory *)

Lemma Int_part_IZR (z : Z) : Int_part (IZR z) = z.
Proof.
  unfold Int_part.
  rewrite <- (up_tech (IZR z) z); [lia | lra |].
  rewrite plus_IZR. lra.
Qed.

(** The index [Math.floor(r * length)] of a draw [r] in [[0, 1)]. *)
Lemma floor_index_in_range (r : R) (n : nat) :
  0 <= r < 1 -> (0 < n)%nat ->
  (0 <= Int_part (r * INR n) < Z.of_nat n)%Z.
Proof.
  intros [H0 H1] Hn.
  assert (Hpos : 0 < INR n) by (apply lt_0_INR; exact Hn).
  destruct (base_Int_part (r * INR n)) as [Hle Hgt].
  assert (Hlo : 0 <= r * INR n) by (apply Rmult_le_pos; lra).
  assert (Hhi : r * INR n < INR n).
  { rewrite <- (Rmult_1_l (INR n)) at 2. apply Rmult_lt_compat_r; lra. }
  split.
  - assert (H : (-1 < Int_part (r * INR n))%Z) by (apply lt_IZR; lra). lia.
  - apply lt_IZR. rewrite <- INR_IZR_INZ. lra.
Qed.

Lemma arrayGet_floor {A : Type} (arr : list A) (r : R) :
  0 <= r < 1 -> arr <> [] ->
  exists a : A,
    In a arr
    /\ arrayGet arr (Math.floor (Number.multiply (Fin r) (arrayLength arr))) = Some a.
Proof.
  intros Hr Hne.
  assert (Hn : (0 < List.length arr)%nat).
  { destruct arr; [contradiction | cbn; lia]. }
  destruct (floor_index_in_range r (List.length arr) Hr Hn) as [Hk0 Hk1].
  unfold arrayLength. cbn [Number.multiply Math.floor arrayGet].
  set (k := Int_part (r * INR (List.length arr))) in *.
  unfold Number.isInteger. rewrite Int_part_IZR.
  destruct (Req_dec_T (IZR k) (IZR k)) as [_ | Hk]; [| now elim Hk].
  destruct (Rle_dec 0 (IZR k)) as [_ | Hk]; [| elim Hk; apply IZR_le; lia].
  destruct (nth_error arr (Z.to_nat k)) as [a |] eqn:Hnth.
  - exists a. split; [eapply nth_error_In; eassumption | reflexivity].
  - apply nth_error_None in Hnth. lia.
Qed.

Lemma arrayGet_nil {A : Type} (k : number) : arrayGet (@nil A) k = None.
Proof.
  destruct k as [r | | |]; try reflexivity. cbn.
  destruct (Number.isInteger r); [| reflexivity].
  destruct (Rle_dec 0 r); [| reflexivity].
  now destruct (Z.to_nat (Int_part r)).
Qed.

(** X22: with a table that is not empty and a draw of [Math.random()] in
    [[0, 1)], [generateRandomAtom] returns an atom whose atomic number,
    atomic mass and symbol are those of one entry of the table; the atom is
    at the position passed, or at the point (500 * r1, 500 * r2) of the two
    next draws when none is passed; it is at rest, with friction 1 and a
    generated id.  On an empty table the call throws. *)
Theorem generateRandomAtom_picks_an_element {Isotope : Type}
    (elements : list Element.t) (r0 : R) (random1 random2 : number)
    (generatedID : string) (pos0 : option Vector2.t) :
  (elements <> [] -> 0 <= r0 < 1 ->
   exists (element : Element.t) (atom : Atom Isotope),
     In element elements
     /\ generateRandomAtom elements (Fin r0) random1 random2 generatedID pos0
        = Some atom
     /\ atomicNumber (properties atom) = Some (Element.number element)
     /\ atomicMass (properties atom) = Some (Element.weight element)
     /\ symbol (properties atom) = Some (Element.symbol element)
     /\ pos atom
        = match pos0 with
          | Some p => p
          | None =>
              Vector2.new (Number.multiply random1 (Fin 500))
                (Number.multiply random2 (Fin 500))
          end
     /\ vel atom = Vector2.new (Fin 0) (Fin 0)
     /\ friction atom = Fin 1
     /\ id atom = generatedID)
  /\ (forall random0 : number,
         @generateRandomAtom Isotope [] random0 random1 random2 generatedID pos0
         = None).
Proof.
  split.
  - intros Hne Hr.
    destruct (arrayGet_floor elements r0 Hr Hne) as (element & Hin & Hget).
    unfold generateRandomAtom. rewrite Hget.
    eexists element, _. split; [exact Hin |]. split; [reflexivity |].
    unfold constructor.
    cbn [properties pos vel friction id set_size optChain orElse toBoolean
         AtomConfig.pos AtomConfig.vel AtomConfig.friction AtomConfig.id
         AtomConfig.properties AtomProperties_ToBoolean Vector2_ToBoolean
         atomicNumber atomicMass symbol].
    repeat split.
  - intros random0. unfold generateRandomAtom. now rewrite arrayGet_nil.
Qed.

(** A draw of 0.7 in the table of hydrogen and helium: helium. *)
Lemma generateRandomAtom_picks_an_element_witness :
  exists (element : Element.t) (atom : Atom Empty_set),
    In element twoElements
    /\ generateRandomAtom twoElements (Fin 0.7) (Fin 0.5) (Fin 0.5) "id" None
       = Some atom
    /\ atomicNumber (properties atom) = Some (Element.number element).
Proof.
  assert (Hne : twoElements <> []) by discriminate.
  assert (Hr : 0 <= 0.7 < 1) by lra.
  destruct (proj1 (generateRandomAtom_picks_an_element (Isotope := Empty_set)
                     twoElements 0.7 (Fin 0.5) (Fin 0.5) "id" None) Hne Hr)
    as (element & atom & Hin & Hgen & Hnum & _).
  exists element, atom. repeat split; assumption.
Defined.

(** ** How the operations compose *)

Lemma calcPositionFrames_fixed {Isotope : Type} (this : Atom Isotope) (deltas : list number) :
  (forall delta, calcPosition this delta = this) ->
  calcPositionFrames this deltas = this.
Proof.
  intros Hfix. induction deltas as [| delta rest IH]; [reflexivity |].
  cbn [calcPositionFrames]. now rewrite Hfix.
Qed.

(** X23: an atom built without an initial velocity never moves: whatever the
    rest of the configuration is, [calcPosition] returns it unchanged, for
    every delta and over any number of frames. *)
Theorem constructor_without_velocity_stays {Isotope : Type} (generatedID : string)
    (config : option (AtomConfig.t Isotope)) (deltas : list number) :
  optChain config AtomConfig.vel = None ->
  (forall delta : number,
      calcPosition (constructor generatedID config) delta
      = constructor generatedID config)
  /\ calcPositionFrames (constructor generatedID config) deltas
     = constructor generatedID config.
Proof.
  intros Hv.
  assert (Hfix : forall delta : number,
             calcPosition (constructor generatedID config) delta
             = constructor generatedID config).
  { intros delta.
    apply (proj2 (rest_fixed_point (constructor generatedID config)
                    delta)).
    unfold constructor. cbn [vel set_size]. now rewrite Hv. }
  split; [exact Hfix |]. now apply calcPositionFrames_fixed.
Qed.

Lemma constructor_without_velocity_stays_witness :
  calcPositionFrames (constructor "id" (Some zeroConfig)) [Fin 0.016; Fin 0.016]
  = constructor "id" (Some zeroConfig).
Proof.
  exact (proj2 (constructor_without_velocity_stays "id" (Some zeroConfig)
                  [Fin 0.016; Fin 0.016] eq_refl)).
Defined.

Lemma add_NaN_l (a : number) : Number.add NaN a = NaN.
Proof. destruct a; reflexivity. Qed.

Lemma multiply_NaN_l (a : number) : Number.multiply NaN a = NaN.
Proof. destruct a; reflexivity. Qed.

Lemma length_NaN (v : Vector2.t) : hasNaN v = true -> Vector2.length v = NaN.
Proof.
  destruct v as [[] []]; cbn; intros H; try reflexivity; try discriminate;
    unfold Number.scaleInfinity; split_tests; reflexivity.
Qed.

(** One step on a velocity with a NaN component. *)
Lemma calcPosition_NaN_step {Isotope : Type} (this : Atom Isotope) (delta : number) :
  (isNaN (Vector2.x (vel this)) = true ->
   Vector2.x (vel (calcPosition this delta)) = NaN
   /\ Vector2.x (pos (calcPosition this delta)) = NaN)
  /\ (isNaN (Vector2.y (vel this)) = true ->
      Vector2.y (vel (calcPosition this delta)) = NaN
      /\ Vector2.y (pos (calcPosition this delta)) = NaN).
Proof.
  split; intros Hn.
  - assert (Hl : Number.lessThan (Vector2.length (vel this)) (Fin 0.00001) = false).
    { rewrite length_NaN; [reflexivity | unfold hasNaN; now rewrite Hn]. }
    rewrite (calcPosition_moving this delta Hl). cbn [pos vel set_pos set_vel].
    unfold specPosition, specVelocity, Vector2.sum, Vector2.multi.
    cbn [Vector2.x Vector2.y].
    destruct (Vector2.x (vel this)); try discriminate.
    now rewrite !add_NaN_l, !multiply_NaN_l, !add_NaN_r.
  - assert (Hl : Number.lessThan (Vector2.length (vel this)) (Fin 0.00001) = false).
    { rewrite length_NaN; [reflexivity | unfold hasNaN; rewrite Hn; apply orb_true_r]. }
    rewrite (calcPosition_moving this delta Hl). cbn [pos vel set_pos set_vel].
    unfold specPosition, specVelocity, Vector2.sum, Vector2.multi.
    cbn [Vector2.x Vector2.y].
    destruct (Vector2.y (vel this)); try discriminate.
    now rewrite !add_NaN_l, !multiply_NaN_l, !add_NaN_r.
Qed.

(** X24: a NaN in the velocity is never repaired.  The rest test does not
    catch a velocity with a NaN component; after a call that component of the
    velocity is still NaN and the same component of the position is NaN; and
    the component of the velocity is NaN after any number of frames.  This
    holds for the x component and for the y component. *)
Theorem calcPosition_NaN_persists {Isotope : Type}
    (this : Atom Isotope) (delta : number) (deltas : list number) :
  (isNaN (Vector2.x (vel this)) = true ->
   Vector2.x (vel (calcPosition this delta)) = NaN
   /\ Vector2.x (pos (calcPosition this delta)) = NaN
   /\ Vector2.x (vel (calcPositionFrames this deltas)) = NaN)
  /\ (isNaN (Vector2.y (vel this)) = true ->
      Vector2.y (vel (calcPosition this delta)) = NaN
      /\ Vector2.y (pos (calcPosition this delta)) = NaN
      /\ Vector2.y (vel (calcPositionFrames this deltas)) = NaN).
Proof.
  split; intros Hn.
  - destruct (proj1 (calcPosition_NaN_step this delta) Hn) as [Hv Hp].
    split; [exact Hv |]. split; [exact Hp |].
    clear delta Hv Hp. revert this Hn.
    induction deltas as [| delta rest IH]; intros this Hn.
    + cbn [calcPositionFrames]. now destruct (Vector2.x (vel this)).
    + cbn [calcPositionFrames]. apply IH.
      now rewrite (proj1 (proj1 (calcPosition_NaN_step this delta) Hn)).
  - destruct (proj2 (calcPosition_NaN_step this delta) Hn) as [Hv Hp].
    split; [exact Hv |]. split; [exact Hp |].
    clear delta Hv Hp. revert this Hn.
    induction deltas as [| delta rest IH]; intros this Hn.
    + cbn [calcPositionFrames]. now destruct (Vector2.y (vel this)).
    + cbn [calcPositionFrames]. apply IH.
      now rewrite (proj1 (proj2 (calcPosition_NaN_step this delta) Hn)).
Qed.

Lemma calcPosition_NaN_persists_witness :
  Vector2.x (vel (calcPositionFrames
                    (atomWith (Vector2.new NaN (Fin 0)) (Fin 1) (massOnly None))
                    [Fin 0.016; Fin 0.016])) = NaN
  /\ Vector2.y (vel (calcPositionFrames
                       (atomWith (Vector2.new (Fin 0) NaN) (Fin 1) (massOnly None))
                       [Fin 0.016; Fin 0.016])) = NaN.
Proof.
  split.
  - exact (proj2 (proj2 (proj1 (calcPosition_NaN_persists
             (atomWith (Vector2.new NaN (Fin 0)) (Fin 1) (massOnly None))
             (Fin 0.016) [Fin 0.016; Fin 0.016]) eq_refl))).
  - exact (proj2 (proj2 (proj2 (calcPosition_NaN_persists
             (atomWith (Vector2.new (Fin 0) NaN) (Fin 1) (massOnly None))
             (Fin 0.016) [Fin 0.016; Fin 0.016]) eq_refl))).
Defined.
